(* ===== verification/_CoqProject ===== *)
-Q . S2P
Prelude.v
SqlDate.v
Calendar.v
Store.v
Derive.v
OrderBy.v
GroupBy.v
Reports.v
Rolling.v
Generate.v
GenerateData.v
