(* ===== verification/Prelude.v ===== *)
(** * Supply-chain bottleneck analysis: a verification development

    The program (src/scripts/demo_sqlite.py) builds a SQLite database
    of suppliers, products, warehouses and shipments
    ([setup_database]) and runs four reports over one common table
    expression, Shipment_Delays ([run_analysis]):
      [1] the five suppliers with the highest average delay
          (GROUP BY, COUNT( * ), COUNT(CASE ...), ROUND(AVG, 2),
          ORDER BY ... DESC, LIMIT 5);
      [2] a ranking of the warehouses, RANK() OVER (ORDER BY
          AVG(delay_days) DESC), with no LIMIT;
      [3] the three products with the highest average delay, with
          their count of delays of more than five days;
      [4] a rolling average of the delay over the five last shipments
          in order_date order, of which the ten latest rows are shown.
    src/scripts/generate_data.py writes a SQL script of random
    shipments for another database engine.

    ** Files, from the bottom up

    - [Prelude] (this file): the [sql_scope] notation scope, the
      class [BoolPreorder] of the boolean orders an ORDER BY compares
      with (integers, rationals, strings, and [opt_le], where SQL NULL
      sorts first), a stable insertion sort [isort] with its
      permutation and sortedness lemmas, and shared lemmas on lists,
      filters and integer sums, with the hint databases [sql] and
      [sql_rw].
    - [SqlDate]: SQLite's own date code, which julianday() runs:
      [read_digits] and [get_field] (SQLite's getDigits) and
      [parseYyyyMmDd] read the date string, [computeJD]
      (with the C integer division of the source as [Z.quot]), and the
      day number as an exact rational.  It also holds CAST(... AS
      INTEGER) as truncation toward zero ([cast_int]) and the
      NULL-propagating subtraction [nsub].
    - [Calendar]: CPython's [datetime] arithmetic as the two scripts
      call it (Module [PyDate]: [ymd2ord], [ord2ymd], [add_days] for
      [datetime + timedelta] with its OverflowError, [isoformat] for
      the '%Y-%m-%d' text), and Module [Agreement]: SQLite's day
      number of a date is its Python ordinal plus a constant, proved
      for every date by decomposing [_ord2ymd]'s 400/100/4/1-year
      cycles (a finite check covers only the 365 days of a year).
    - [Store]: the four tables of setup_database as [Table]s of
      records with SQLite's AUTOINCREMENT rule (a new rowid is one more
      than the larger of the sequence value and the largest rowid),
      [executemany] as a left fold of inserts, and the three seed
      lists of the source.  The theorems say that seeding an empty
      table gives ids 1..n, each found by its key.
    - [Derive]: the CTE Shipment_Delays as [shipment_delays], an inner
      join written in the list monad, with [delay_row] computing
      actual_lead_time and delay_days exactly as the SELECT list does.
    - [OrderBy]: ORDER BY is the interface [Sorter] (a sort returns a
      permutation that is sorted).  A stable insertion sort is the
      instance that evaluates the examples ([isort_sorter]); the
      report theorems are proved for every instance.  LIMIT n is [take n]; [top_by] is ORDER BY ... DESC
      LIMIT n.  RANK() is [rank_from], SQLite's scan over peer groups,
      proved equal to the declarative [rank_of]: one plus the number
      of rows strictly before.
    - [GroupBy]: GROUP BY as [group_by], an association list with
      ascending keys, and its contract [grouped]; COUNT( * ), COUNT
      of a CASE, AVG as an exact rational ([sql_avg], NULL when the
      group has no non-NULL value) and ROUND(x, 2) as [round2], in hundredths.
    - [Reports]: reports [1], [2] and [3] as [top_suppliers],
      [warehouse_ranking] and [top_products].
    - [Rolling]: report [4]: SQLite's sliding-window aggregate (the
      running sum and count of [avgStep] / [avgInverse], updated as
      rows enter and leave the frame) as [rolling_from], proved equal
      to the frame definition of the SQL standard ([rolling_ref],
      [frame_at]), then [rolling_trend], the ten latest rows.
    - [Generate]: the shipment loop of setup_database.  Python's
      [random] module is the class [Rng] ([randint], [random] as
      functions of the generator state) with the range law
      [RngLaws]; the loop runs in a state-and-exception monad [Gen]
      (an exception of Python is [None]); [setup_database] is the
      seeding followed by fifty [shipment_step]s and INSERTs.
    - [GenerateData]: generate_data.py: the seed lists, the INSERT
      statements as f-strings ([py_str] is str() of an integer), the
      150-iteration loop, and the newline-joined text it writes.

    ** What the theorems show (claim ids C1..C29 in the doc comments)

    - delay_days is the whole number of days elapsed minus the
      promised lead time, and actual_lead_time is the elapsed days;
      the CTE has one row per shipment whose three keys resolve
      (C1, C2, C14; the specification's Asia Logistics Hub example,
      19 days elapsed and a delay of 4, is the witness of C1).
    - reports [1] and [3]: every row is the aggregate of its group;
      at most five (three) rows, sorted by the rounded average,
      descending; no supplier left out ranks above one shown; an empty
      CTE gives an empty report (C3-C5, C12, C13, C17).
    - report [2]: every warehouse appears once, and its rank is one
      plus the number of warehouses with a strictly greater exact
      average; ranks rise down the report and equal averages share a
      rank, with gaps after ties (C6-C8; the specification's example,
      averages 8, 8 and 3, is the witness of C8).
    - report [4]: the incremental window equals the frame definition
      and every row carries the rounded average of its frame of at
      most five rows; the earliest shipment's average is its own delay
      (C9-C11, C16).
    - GROUP BY meets its contract, ROUND(_, 2) is within half a
      hundredth and rounds exact halves away from zero, and seeding
      gives dense ids found by their keys (C15, C18-C21).
    - the generated data (C22, C27-C29): whatever the random
      generator and its seed, setup_database and generate_data return
      without an exception; every generated shipment resolves, its
      delay_days is the drawn offset (-1..2 or 5..15 days) and its
      delivery comes after its order; the script's statements come
      in the order the specification fixes, one per line.
    - Python and SQLite agree on dates (C23-C26): [_ord2ymd] and
      [_ymd2ord] are inverse bijections, julianday of the ISO text of
      a date is its ordinal plus 1721424.5, so CAST(julianday(a) -
      julianday(b) AS INTEGER) is the difference of the ordinals, and
      [datetime + timedelta] adds days or raises OverflowError.
    - What the code leaves open is stated by the contracts, not
      proved away: ORDER BY fixes rows only up to ties ([Sorter]), so
      tied suppliers and same-day shipments may come in either order,
      and RANK compares exact averages, so two warehouses shown with
      the same rounded average may get different ranks (C6).

    ** Modelling choices

    - SQLite's doubles are modelled as exact rationals (Q).  The day
      numbers julianday() returns here are whole days plus one half,
      and their differences are small integers, which a double holds
      exactly; AVG and ROUND are taken exact (ROUND(x, 2) rounds half
      away from zero, as sqlite3's round does on exact halves).
    - [random.random() < 0.3] compares with the double the literal
      0.3 denotes, 5404319552844595 / 2^54, as an exact rational.
    - A date string with a time of day is not parsed (julianday gives
      NULL in the model): the program only stores '%Y-%m-%d' strings.
    - Rows that are equal under an ORDER BY can come back in any order
      from SQLite, so nothing is proved about their order beyond the
      [Sorter] contract.
    - Fuel: [dec_digits] (str() of an integer) takes one step per
      decimal digit and is given [1 + log2 n] steps, more than the
      number of digits of [n]; every other definition is
      structurally recursive.
    - [strftime('%Y-%m-%d')] and [isoformat()] write the same text for
      the years 1000-9999; the model has the latter for both, and the
      scripts only write dates of 2023 and 2024.

    ** Not modelled

    - Probabilities: the theorems hold for every outcome of the
      random draws; how often a delay is drawn is not a property of
      any single run.
    - Printing of the reports, sqlite3.connect / commit / close, and
      the file write of generate_data (the model returns the text):
      I/O.
    - SQLite's date parser beyond 'YYYY-MM-DD' (times of day, time
      zones, modifiers): the program never stores them.  *)

From Stdlib Require Import ZArith QArith String Ascii Sorted Permutation.
From stdpp Require Import base list strings.

(** ** Notation scope of the development *)

Declare Scope sql_scope.
Delimit Scope sql_scope with sql.

(** Invert a hypothesis, substitute, and drop it. *)
Ltac invc H := inversion H; subst; clear H.

(** ** Boolean total preorders

    Every ORDER BY of the program compares keys with a boolean test
    ([<=] on integers, on rationals, on strings, NULL first).  A
    [BoolPreorder] is a boolean relation that is total and
    transitive: exactly what a sort needs. *)

Class BoolPreorder {A : Type} (le : A -> A -> bool) := {
  bp_total : forall x y, le x y = true \/ le y x = true;
  bp_trans : forall x y z, le x y = true -> le y z = true -> le x z = true
}.

Lemma bp_refl {A} (le : A -> A -> bool) `{!BoolPreorder le} x : le x x = true.
Proof. destruct (bp_total (le := le) x x); auto. Qed.

Lemma bp_not_le {A} (le : A -> A -> bool) `{!BoolPreorder le} x y :
  le x y = false -> le y x = true.
Proof. intros H. destruct (bp_total (le := le) x y) as [H'|H']; [congruence|exact H']. Qed.

#[export] Instance Z_leb_preorder : BoolPreorder Z.leb.
Proof.
  split.
  - intros x y. rewrite !Z.leb_le. lia.
  - intros x y z. rewrite !Z.leb_le. lia.
Qed.

#[export] Instance Q_leb_preorder : BoolPreorder Qle_bool.
Proof.
  split.
  - intros x y. rewrite !Qle_bool_iff.
    destruct (Qlt_le_dec x y); [left; apply Qlt_le_weak|right]; auto.
  - intros x y z. rewrite !Qle_bool_iff. apply Qle_trans.
Qed.

(** SQL compares NULL below every value. *)
Definition opt_le {A} (le : A -> A -> bool) (x y : option A) : bool :=
  match x, y with
  | None, _ => true
  | Some _, None => false
  | Some a, Some b => le a b
  end.

#[export] Instance opt_le_preorder {A} (le : A -> A -> bool) `{!BoolPreorder le} :
  BoolPreorder (opt_le le).
Proof.
  split.
  - intros [a|] [b|]; simpl; auto using bp_total.
  - intros [a|] [b|] [c|]; simpl; try discriminate; eauto using bp_trans.
Qed.

(** Comparing through a key, and reversing for DESC. *)
Definition on_key {A K} (key : A -> K) (le : K -> K -> bool) (x y : A) : bool :=
  le (key x) (key y).

Definition desc {A} (le : A -> A -> bool) (x y : A) : bool := le y x.

#[export] Instance on_key_preorder {A K} (key : A -> K) (le : K -> K -> bool)
  `{!BoolPreorder le} : BoolPreorder (on_key key le).
Proof. split; unfold on_key; eauto using bp_total, bp_trans. Qed.

#[export] Instance desc_preorder {A} (le : A -> A -> bool) `{!BoolPreorder le} :
  BoolPreorder (desc le).
Proof.
  split; unfold desc.
  - intros x y. destruct (bp_total y x); auto.
  - eauto using bp_trans.
Qed.

(** Instance search matches these combinators syntactically and never
    unfolds them: [desc le] would otherwise unify with any relation. *)
#[export] Typeclasses Opaque opt_le on_key desc.

(** ** Strings in BINARY collation

    SQLite compares TEXT with memcmp; on ASCII strings this is
    [String.compare], lexicographic on character codes. *)

Definition str_le (s t : string) : bool :=
  match String.compare s t with Gt => false | _ => true end.

Lemma ascii_compare_N (a b : ascii) :
  Ascii.compare a b = N.compare (N_of_ascii a) (N_of_ascii b).
Proof. reflexivity. Qed.

Lemma str_le_cons (a b : ascii) s t :
  str_le (String a s) (String b t) =
  match N.compare (N_of_ascii a) (N_of_ascii b) with
  | Eq => str_le s t | Lt => true | Gt => false end.
Proof.
  unfold str_le; simpl; rewrite ascii_compare_N.
  destruct (N.compare _ _); reflexivity.
Qed.

Lemma N_of_ascii_inj (a b : ascii) : N_of_ascii a = N_of_ascii b -> a = b.
Proof.
  intros H. rewrite <- (ascii_N_embedding a), <- (ascii_N_embedding b), H.
  reflexivity.
Qed.

Ltac ncmp_cases a b :=
  destruct (N.compare_spec (N_of_ascii a) (N_of_ascii b)).

#[export] Instance str_le_preorder : BoolPreorder str_le.
Proof.
  split.
  - induction x as [|a s IH]; intros [|b t]; auto.
    rewrite !str_le_cons. ncmp_cases a b; ncmp_cases b a; auto; lia.
  - induction x as [|a s IH]; intros [|b t] [|c u]; try discriminate; auto.
    rewrite !str_le_cons. ncmp_cases a b; ncmp_cases b c; ncmp_cases a c;
      intros; try discriminate; eauto; lia.
Qed.

(** ** A stable insertion sort

    [insert_by le x l] puts [x] before the first element [y] of [l]
    with [le x y]; sorting from the right end keeps the elements of
    equal key in their input order. *)

Fixpoint insert_by {A} (le : A -> A -> bool) (x : A) (l : list A) : list A :=
  match l with
  | [] => [x]
  | y :: l' => if le x y then x :: l else y :: insert_by le x l'
  end.

Fixpoint isort {A} (le : A -> A -> bool) (l : list A) : list A :=
  match l with
  | [] => []
  | x :: l' => insert_by le x (isort le l')
  end.

Definition le_rel {A} (le : A -> A -> bool) : A -> A -> Prop :=
  fun x y => le x y = true.

Section InsertionSort.
Context {A : Type} (le : A -> A -> bool) `{!BoolPreorder le}.

Lemma insert_by_perm x l : insert_by le x l ≡ₚ x :: l.
Proof.
  induction l as [|y l IH]; simpl; [done|].
  destruct (le x y); [done|]. rewrite IH. constructor.
Qed.

Lemma isort_perm l : isort le l ≡ₚ l.
Proof.
  induction l as [|x l IH]; simpl; [done|].
  rewrite insert_by_perm, IH. done.
Qed.

Lemma insert_by_sorted x l :
  Sorted (le_rel le) l -> Sorted (le_rel le) (insert_by le x l).
Proof.
  induction 1 as [|y l Hs IH Hhd]; simpl; [repeat constructor|].
  destruct (le x y) eqn:Hxy.
  - constructor; [constructor; auto|]. constructor. exact Hxy.
  - apply (bp_not_le le) in Hxy. constructor; [exact IH|].
    destruct l as [|z l]; simpl.
    + constructor. exact Hxy.
    + inversion Hhd; subst. unfold le_rel in *.
      destruct (le x z); constructor; auto.
Qed.

Lemma isort_sorted l : Sorted (le_rel le) (isort le l).
Proof. induction l; simpl; auto using insert_by_sorted. Qed.
End InsertionSort.

(** ** Filters *)

Section Filters.
Context {A : Type} (P Q : A -> Prop) `{!forall x, Decision (P x)} `{!forall x, Decision (Q x)}.

Lemma filter_all (l : list A) : (forall x, x ∈ l -> P x) -> filter P l = l.
Proof.
  induction l as [|x l IH]; intros Hl; [done|].
  rewrite filter_cons_True by (apply Hl; left). f_equal. apply IH.
  intros y Hy. apply Hl. by right.
Qed.

Lemma filter_none (l : list A) : (forall x, x ∈ l -> ~ P x) -> filter P l = [].
Proof.
  induction l as [|x l IH]; intros Hl; [done|].
  rewrite filter_cons_False by (apply Hl; left). apply IH.
  intros y Hy. apply Hl. by right.
Qed.

Lemma filter_ext_in (l : list A) : (forall x, x ∈ l -> P x <-> Q x) -> filter P l = filter Q l.
Proof.
  induction l as [|x l IH]; intros Hl; [done|]. rewrite !filter_cons.
  assert (Hx : P x <-> Q x) by (apply Hl; left).
  rewrite IH by (intros y Hy; apply Hl; by right).
  destruct (decide (P x)), (decide (Q x)); tauto.
Qed.
End Filters.

(** A list of pairs is determined by its two projections. *)
Lemma map_fst_snd_eq {A B} (rl : list (A * B)) (l : list A) (f : A -> B) :
  map snd rl = map f l -> map fst rl = l -> rl = map (fun x => (x, f x)) l.
Proof.
  revert l. induction rl as [|[y r] rl IH]; intros [|x l] Hs Hf; try discriminate; [done|].
  simpl in *. invc Hs. invc Hf. f_equal. by apply IH.
Qed.

(** In an association list with distinct keys, the key determines the entry. *)
Lemma NoDup_fst_eq {A B} (l : list (A * B)) x y :
  NoDup (map fst l) -> x ∈ l -> y ∈ l -> fst x = fst y -> x = y.
Proof.
  induction l as [|z l IH]; simpl; intros Hnd Hx Hy Hf; [by apply not_elem_of_nil in Hx|].
  apply NoDup_cons in Hnd as [Hz Hnd].
  apply elem_of_cons in Hx as [->|Hx]; apply elem_of_cons in Hy as [->|Hy]; try done.
  - exfalso. apply Hz. rewrite Hf. apply list_elem_of_fmap. eauto.
  - exfalso. apply Hz. rewrite <- Hf. apply list_elem_of_fmap. eauto.
  - by apply IH.
Qed.

Lemma Sorted_map_mono {A B} (R : A -> A -> Prop) (S : B -> B -> Prop) (f : A -> B) l :
  (forall x y, R x y -> S (f x) (f y)) -> Sorted R l -> Sorted S (map f l).
Proof.
  intros Hf. induction 1 as [|x l Hs IH Hhd]; simpl; constructor; [done|].
  destruct Hhd; constructor. by apply Hf.
Qed.

Lemma all_eq_repeat {A} (l : list A) (x : A) :
  (forall z, z ∈ l -> z = x) -> l = repeat x (length l).
Proof.
  induction l as [|y l IH]; intros Hall; [done|]. simpl.
  rewrite (Hall y ltac:(left)). f_equal. apply IH. intros z Hz. apply Hall. by right.
Qed.

(** ** Integer sums and counts *)

Definition zsum (l : list Z) : Z := foldr Z.add 0%Z l.

Lemma zsum_app l1 l2 : zsum (l1 ++ l2) = (zsum l1 + zsum l2)%Z.
Proof. induction l1; simpl; lia. Qed.

Lemma zsum_perm l1 l2 : l1 ≡ₚ l2 -> zsum l1 = zsum l2.
Proof. induction 1; simpl; lia. Qed.

(** ** Automation *)

Create HintDb sql.
Create Rewrite HintDb sql_rw.


(** Membership of a concrete element in a concrete list. *)
Ltac solve_elem := apply list_elem_of_In; simpl; repeat (first [left; reflexivity | right]).

#[export] Hint Resolve bp_refl bp_total isort_sorted isort_perm : sql.
#[export] Hint Rewrite zsum_app : sql_rw.

(** A list bind in which every element yields exactly one result. *)
Lemma bind_singletons {A B} (f : A -> list B) (P : B -> Prop) (l : list A) :
  Forall (fun x => exists y, f x = [y] /\ P y) l ->
  length (l ≫= f) = length l /\ Forall P (l ≫= f).
Proof.
  induction l as [|x l IH]; intros Hl; [done|].
  apply Forall_cons in Hl as [(y & Hy & HP) Hl]. destruct (IH Hl) as [Hlen HF].
  rewrite bind_cons, Hy. simpl. split; [by rewrite Hlen|]. by constructor.
Qed.

(** ** Antisymmetry of the string order *)

Lemma str_le_antisym s t : str_le s t = true -> str_le t s = true -> s = t.
Proof.
  unfold str_le. rewrite (String.compare_antisym t s).
  destruct (String.compare s t) eqn:E; simpl; try discriminate.
  intros _ _. by apply String.compare_eq_iff.
Qed.

(** The strict order of group keys. *)
Definition str_lt (s t : string) : Prop := str_le s t = true /\ s <> t.

Lemma str_lt_trans s t u : str_lt s t -> str_lt t u -> str_lt s u.
Proof.
  intros [Hst Hne1] [Htu Hne2]. split; [exact (bp_trans _ _ _ Hst Htu)|].
  intros ->. apply Hne1. by apply str_le_antisym.
Qed.
