(* ===== verification/SqlDate.v ===== *)
(** * SQLite's [julianday] and [CAST ... AS INTEGER]

    The delay view of [run_analysis] (src/scripts/demo_sqlite.py,
    lines 116-117) subtracts [julianday(s.order_date)] from
    [julianday(s.delivery_date)] and casts the result to INTEGER.  This
    file models the SQLite date functions those lines call: the parser
    of 'YYYY-MM-DD' text ([parseYyyyMmDd], [getDigits]), the conversion
    to a Julian day number in milliseconds ([computeJD]), the REAL
    result of [julianday] (a rational: every value it produces here is
    exact in binary floating point), NULL propagation, and the
    truncating CAST. *)

From Stdlib Require Import ZArith QArith String Ascii.
From stdpp Require Import base list strings.
From S2P Require Import Prelude.

Local Open Scope Z_scope.

(** ** Parsing 'YYYY-MM-DD' (SQLite date.c, getDigits / parseYyyyMmDd) *)

Record DateTime := mkDateTime { dt_Y : Z; dt_M : Z; dt_D : Z }.

Definition digit_of (c : ascii) : option Z :=
  let n := Z.of_N (N_of_ascii c) in
  if (48 <=? n) && (n <=? 57) then Some (n - 48) else None.

(** [N] decimal digits, most significant first. *)
Fixpoint read_digits (n : nat) (acc : Z) (s : string) : option (Z * string) :=
  match n with
  | O => Some (acc, s)
  | S n' =>
      match s with
      | EmptyString => None
      | String c s' => v ← digit_of c; read_digits n' (acc * 10 + v) s'
      end
  end.

(** One field of a getDigits format: [n] digits whose value lies in
    [min, max], followed by the separator [next] when there is one. *)
Definition get_field (n : nat) (min max : Z) (next : option ascii) (s : string)
  : option (Z * string) :=
  '(v, r) ← read_digits n 0 s;
  if (min <=? v) && (v <=? max) then
    match next with
    | None => Some (v, r)
    | Some c =>
        match r with
        | String c' r' => if Ascii.eqb c c' then Some (v, r') else None
        | EmptyString => None
        end
    end
  else None.

(** sqlite3Isspace, or the letter T that may separate date and time. *)
Definition is_space_or_T (c : ascii) : bool :=
  let n := N_of_ascii c in
  (n =? 32)%N || ((9 <=? n)%N && (n <=? 13)%N) || Ascii.eqb c "T"%char.

Fixpoint skip_space_T (s : string) : string :=
  match s with
  | String c s' => if is_space_or_T c then skip_space_T s' else s
  | EmptyString => EmptyString
  end.

(** The format "40f-21a-21d": a 4-digit year in [0, 9999], '-', a month
    in [1, 12], '-', a day in [1, 31]; an optional leading '-' makes the
    year negative.  A time of day after the date (parseHhMmSs) is not
    modelled: such text gives [None] here. *)
Definition parseYyyyMmDd (s : string) : option DateTime :=
  let '(neg, s) := match s with
                   | String "-"%char s' => (true, s')
                   | _ => (false, s)
                   end in
  '(y, s) ← get_field 4 0 9999 (Some "-"%char) s;
  '(m, s) ← get_field 2 1 12 (Some "-"%char) s;
  '(d, s) ← get_field 2 1 31 None s;
  match skip_space_T s with
  | EmptyString => Some (mkDateTime (if neg then - y else y) m d)
  | String _ _ => None
  end.

(** ** computeJD: the Julian day number, in milliseconds

    C integer division truncates toward zero: [Z.quot]. *)

Definition jd_day_number (p : DateTime) : Z :=
  let '(Y, M) := if dt_M p <=? 2 then (dt_Y p - 1, dt_M p + 12)
                 else (dt_Y p, dt_M p) in
  let A := Z.quot Y 100 in
  let B := 2 - A + Z.quot A 4 in
  let X1 := Z.quot (36525 * (Y + 4716)) 100 in
  let X2 := Z.quot (306001 * (M + 1)) 10000 in
  X1 + X2 + dt_D p + B.

(** [iJD = (X1 + X2 + D + B - 1524.5) * 86400000]: the double product
    is exact here, so is the conversion to a 64-bit integer. *)
Definition computeJD (p : DateTime) : option Z :=
  if (dt_Y p <? -4713) || (9999 <? dt_Y p) then None
  else Some (jd_day_number p * 86400000 - 131716800000).

Definition validJulianDay (iJD : Z) : bool :=
  (0 <=? iJD) && (iJD <=? 464269060799999).

(** [julianday(X)] is [iJD / 86400000.0], NULL when X does not parse. *)
Definition julianday (s : string) : option Q :=
  p ← parseYyyyMmDd s;
  iJD ← computeJD p;
  if validJulianDay iJD then Some (iJD # 86400000) else None.

(** ** NULL-propagating REAL arithmetic and CAST(_ AS INTEGER) *)

Definition nsub (a b : option Q) : option Q :=
  x ← a; y ← b; Some (x - y)%Q.

Definition nsub_int (a : option Q) (b : option Z) : option Q :=
  x ← a; y ← b; Some (x - inject_Z y)%Q.

Notation "a -ₙ b" := (nsub a b) (at level 50, left associativity) : sql_scope.

(** CAST(REAL AS INTEGER) truncates toward zero. *)
Definition cast_int (q : Q) : Z := Z.quot (Qnum q) (Zpos (Qden q)).

Definition ncast_int (a : option Q) : option Z := cast_int <$> a.

(** ** Lemmas *)

#[export] Instance cast_int_proper : Proper (Qeq ==> eq) cast_int.
Proof.
  intros [a b] [c d] H. unfold Qeq in H; simpl in H. unfold cast_int; simpl.
  rewrite <- (Z.quot_mul_cancel_r a (Zpos b) (Zpos d)) by lia.
  rewrite <- (Z.quot_mul_cancel_r c (Zpos d) (Zpos b)) by lia.
  rewrite H, (Z.mul_comm (Zpos d)). reflexivity.
Qed.

Lemma cast_int_inject_Z z : cast_int (inject_Z z) = z.
Proof. unfold cast_int; simpl. apply Z.quot_1_r. Qed.

Lemma cast_int_sub_int (q : Q) (k l : Z) :
  (q == inject_Z k)%Q -> cast_int (q - inject_Z l)%Q = k - l.
Proof.
  intros Hq. rewrite Hq, <- cast_int_inject_Z. apply cast_int_proper.
  rewrite <- Z.add_opp_r, inject_Z_plus, inject_Z_opp. ring.
Qed.

(** Every value [julianday] returns is a day number minus one half. *)
Lemma julianday_some s q :
  julianday s = Some q ->
  exists p, parseYyyyMmDd s = Some p /\
            (q == inject_Z (jd_day_number p) - (3049 # 2))%Q.
Proof.
  unfold julianday. destruct (parseYyyyMmDd s) as [p|]; simpl; [|discriminate].
  unfold computeJD. destruct (_ || _); simpl; [discriminate|].
  destruct (validJulianDay _); intros H; invc H.
  exists p. split; [done|]. unfold Qeq; simpl. lia.
Qed.

Lemma julianday_sub s1 s2 q1 q2 :
  julianday s1 = Some q1 -> julianday s2 = Some q2 ->
  exists p1 p2, parseYyyyMmDd s1 = Some p1 /\ parseYyyyMmDd s2 = Some p2 /\
    (q1 - q2 == inject_Z (jd_day_number p1 - jd_day_number p2))%Q.
Proof.
  intros [p1 [Hp1 Hq1]]%julianday_some [p2 [Hp2 Hq2]]%julianday_some.
  exists p1, p2. split; [done|]. split; [done|].
  rewrite Hq1, Hq2, <- Z.add_opp_r, inject_Z_plus, inject_Z_opp. ring.
Qed.
