(* ===== verification/Calendar.v ===== *)
(** * Python's proleptic Gregorian calendar, and SQLite's agreement with it

    [setup_database] (src/scripts/demo_sqlite.py, lines 76-91) and
    [generate_data] (src/scripts/generate_data.py, lines 53-76) make
    every date of the data set as [datetime(2023, 1, 1) +
    timedelta(days=k)] and write it as 'YYYY-MM-DD' text.  Python does
    that arithmetic on day ordinals (CPython's [datetime] module:
    [_ymd2ord], [_ord2ymd], [datetime.__add__]); SQLite reads the text
    back with [julianday].  This file models the Python side from the
    module's code and proves that SQLite's day numbers are Python's
    ordinals shifted by a constant, so that [julianday] differences are
    exact day counts. *)

From Stdlib Require Import ZArith QArith String Ascii.
From stdpp Require Import base list strings.
From S2P Require Import Prelude SqlDate.

Local Open Scope Z_scope.
Local Open Scope sql_scope.

Module PyDate.

(** ** The module's tables (index 0 is a placeholder, as in the source) *)

Definition DAYS_IN_MONTH : list Z :=
  [-1; 31; 28; 31; 30; 31; 30; 31; 31; 30; 31; 30; 31].

(** [for dim in _DAYS_IN_MONTH[1:]: _DAYS_BEFORE_MONTH.append(dbm); dbm += dim] *)
Fixpoint running_sums (dbm : Z) (dims : list Z) : list Z :=
  match dims with
  | [] => []
  | dim :: dims' => dbm :: running_sums (dbm + dim) dims'
  end.

Definition DAYS_BEFORE_MONTH : list Z := -1 :: running_sums 0 (tail DAYS_IN_MONTH).

(** List indexing; every index used below lies in [1, 12]. *)
Definition at_index (l : list Z) (i : Z) : Z := nth (Z.to_nat i) l 0.

(** ** Ordinals: day 1 is 0001-01-01 *)

Definition is_leap (year : Z) : bool :=
  (year mod 4 =? 0) && (negb (year mod 100 =? 0) || (year mod 400 =? 0)).

Definition days_before_year (year : Z) : Z :=
  let y := year - 1 in y * 365 + y / 4 - y / 100 + y / 400.

Definition days_in_month (year month : Z) : Z :=
  if (month =? 2) && is_leap year then 29 else at_index DAYS_IN_MONTH month.

Definition days_before_month (year month : Z) : Z :=
  at_index DAYS_BEFORE_MONTH month + Z.b2z ((2 <? month) && is_leap year).

Definition ymd2ord (year month day : Z) : Z :=
  days_before_year year + days_before_month year month + day.

Definition DI400Y := days_before_year 401.
Definition DI100Y := days_before_year 101.
Definition DI4Y := days_before_year 5.

(** [_ord2ymd]: [divmod] is floor division, [>>] a right shift. *)
Definition ord2ymd (n : Z) : Z * Z * Z :=
  let n := n - 1 in
  let n400 := n / DI400Y in let n := n mod DI400Y in
  let year := n400 * 400 + 1 in
  let n100 := n / DI100Y in let n := n mod DI100Y in
  let n4 := n / DI4Y in let n := n mod DI4Y in
  let n1 := n / 365 in let n := n mod 365 in
  let year := year + n100 * 100 + n4 * 4 + n1 in
  if (n1 =? 4) || (n100 =? 4) then (year - 1, 12, 31)
  else
    let leapyear := (n1 =? 3) && (negb (n4 =? 24) || (n100 =? 3)) in
    let month := Z.shiftr (n + 50) 5 in
    let preceding := at_index DAYS_BEFORE_MONTH month + Z.b2z ((2 <? month) && leapyear) in
    let '(month, preceding) :=
      if n <? preceding then
        (month - 1, preceding - (at_index DAYS_IN_MONTH (month - 1)
                                 + Z.b2z ((month - 1 =? 2) && leapyear)))
      else (month, preceding) in
    (year, month, n - preceding + 1).

(** ** [date] objects and [datetime + timedelta] *)

Record date := mkDate { year : Z; month : Z; day : Z }.

Definition MAXORDINAL : Z := 3652059.

Definition toordinal (d : date) : Z := ymd2ord (year d) (month d) (day d).

Definition fromordinal (n : Z) : date :=
  let '(y, m, d) := ord2ymd n in mkDate y m d.

(** [datetime.__add__] with a zero time of day: the sum of ordinals,
    or [OverflowError] ([None]) outside [1, MAXORDINAL]. *)
Definition add_days (d : date) (days : Z) : option date :=
  let o := toordinal d + days in
  if (0 <? o) && (o <=? MAXORDINAL) then Some (fromordinal o) else None.

(** The constructor's check ([_check_date_fields]). *)
Definition valid_date (d : date) : bool :=
  (1 <=? year d) && (year d <=? 9999) && (1 <=? month d) && (month d <=? 12)
  && (1 <=? day d) && (day d <=? days_in_month (year d) (month d)).

(** ** Text: [isoformat] is ["%04d-%02d-%02d"]; [strftime('%Y-%m-%d')]
    writes the same text for the years 1000-9999 *)

Definition digit_char (v : Z) : ascii := ascii_of_N (Z.to_N (48 + v)).

(** [%0nd] of a value below [10 ^ n]: its [n] last digits. *)
Fixpoint zpad (n : nat) (v : Z) : string :=
  match n with
  | O => EmptyString
  | S n' => String (digit_char (v / 10 ^ Z.of_nat n' mod 10)) (zpad n' v)
  end.

Definition isoformat (d : date) : string :=
  zpad 4 (year d) +:+ "-" +:+ zpad 2 (month d) +:+ "-" +:+ zpad 2 (day d).

(** ** Checking a block of consecutive integers *)

Fixpoint check_block (f : Z -> bool) (p : positive) (lo : Z) : bool :=
  match p with
  | xH => f lo
  | xO q => check_block f q lo && check_block f q (lo + Zpos q)
  | xI q => f lo && check_block f q (lo + 1) && check_block f q (lo + 1 + Zpos q)
  end.

Lemma check_block_spec f p lo n :
  check_block f p lo = true -> lo <= n < lo + Zpos p -> f n = true.
Proof.
  revert lo. induction p as [q IH|q IH|]; intros lo; simpl.
  - intros [[H0 H1]%andb_prop H2]%andb_prop Hn.
    destruct (Z.eq_dec n lo) as [->|]; [done|].
    destruct (Z_lt_le_dec n (lo + 1 + Zpos q)); [apply (IH (lo + 1))|apply (IH (lo + 1 + Zpos q))]; auto; lia.
  - intros [H1 H2]%andb_prop Hn.
    destruct (Z_lt_le_dec n (lo + Zpos q)); [apply (IH lo)|apply (IH (lo + Zpos q))]; auto; lia.
  - intros H Hn. by replace n with lo by lia.
Qed.

(** ** The length of a year, and the months inside it *)

Lemma days_before_year_succ y :
  days_before_year (y + 1) = days_before_year y + 365 + Z.b2z (is_leap y).
Proof.
  unfold days_before_year, is_leap.
  destruct (Z.eqb_spec (y mod 4) 0), (Z.eqb_spec (y mod 100) 0), (Z.eqb_spec (y mod 400) 0);
    simpl; Z.div_mod_to_equations; lia.
Qed.

Lemma days_before_year_mono y1 y2 : y1 <= y2 -> days_before_year y1 <= days_before_year y2.
Proof. unfold days_before_year. Z.div_mod_to_equations. lia. Qed.

Ltac enum_month m :=
  let Hm := fresh in
  assert (m = 1 \/ m = 2 \/ m = 3 \/ m = 4 \/ m = 5 \/ m = 6 \/ m = 7 \/ m = 8 \/
          m = 9 \/ m = 10 \/ m = 11 \/ m = 12) as Hm by lia;
  destruct_or! Hm; subst m.

(** Month [m] ends where month [m'] > [m] starts at the latest, and
    December ends with the year. *)
Lemma days_before_month_mono y m m' :
  1 <= m -> m < m' -> m' <= 12 ->
  days_before_month y m + days_in_month y m <= days_before_month y m'.
Proof.
  intros. unfold days_before_month, days_in_month.
  destruct (is_leap y); enum_month m; enum_month m'; try lia; vm_compute; congruence.
Qed.

Lemma days_before_month_year_end y m :
  1 <= m <= 12 ->
  0 <= days_before_month y m /\
  days_before_month y m + days_in_month y m <= 365 + Z.b2z (is_leap y).
Proof.
  intros. unfold days_before_month, days_in_month.
  destruct (is_leap y); enum_month m; vm_compute; split; congruence.
Qed.

Definition valid_md (d : date) : bool :=
  (1 <=? month d) && (month d <=? 12) && (1 <=? day d) && (day d <=? days_in_month (year d) (month d)).

Lemma valid_md_spec d :
  valid_md d = true <->
  1 <= month d <= 12 /\ 1 <= day d <= days_in_month (year d) (month d).
Proof. unfold valid_md. rewrite !andb_true_iff, !Z.leb_le. tauto. Qed.

(** A date lies inside its year. *)
Lemma toordinal_bounds d :
  valid_md d = true ->
  days_before_year (year d) + 1 <= toordinal d <= days_before_year (year d + 1).
Proof.
  intros [Hm Hd]%valid_md_spec. unfold toordinal, ymd2ord.
  rewrite days_before_year_succ. pose proof (days_before_month_year_end (year d) _ Hm). lia.
Qed.

Lemma toordinal_inj d d' :
  valid_md d = true -> valid_md d' = true -> toordinal d = toordinal d' -> d = d'.
Proof.
  intros Hv Hv' E.
  assert (Hy : year d = year d').
  { pose proof (toordinal_bounds d Hv). pose proof (toordinal_bounds d' Hv').
    destruct (Z.lt_trichotomy (year d) (year d')) as [Hlt|[Heq|Hgt]]; [exfalso|done|exfalso].
    - pose proof (days_before_year_mono (year d + 1) (year d') ltac:(lia)). lia.
    - pose proof (days_before_year_mono (year d' + 1) (year d) ltac:(lia)). lia. }
  destruct d as [y m dd], d' as [y' m' dd']; simpl in *; subst y'.
  apply valid_md_spec in Hv, Hv'; simpl in *. unfold toordinal, ymd2ord in E; simpl in E.
  assert (m = m') as <-.
  { destruct (Z.lt_trichotomy m m') as [Hlt|[Heq|Hgt]]; [exfalso|done|exfalso].
    - pose proof (days_before_month_mono y m m' ltac:(lia) Hlt ltac:(lia)). lia.
    - pose proof (days_before_month_mono y m' m ltac:(lia) Hgt ltac:(lia)). lia. }
  f_equal. lia.
Qed.

(** ** Reading back the digits [%0nd] writes *)

Lemma digit_of_char v : 0 <= v < 10 -> digit_of (digit_char v) = Some v.
Proof.
  intros Hv. unfold digit_of, digit_char.
  rewrite N_ascii_embedding by lia.
  rewrite Z2N.id by lia.
  replace ((48 <=? 48 + v) && (48 + v <=? 57)) with true by (symmetry; apply andb_true_iff; lia).
  f_equal. lia.
Qed.

Lemma zpad_app n v rest :
  0 <= v -> read_digits n 0 (zpad n v +:+ rest) = Some (v mod 10 ^ Z.of_nat n, rest).
Proof.
  intros Hv. cut (forall acc, read_digits n acc (zpad n v +:+ rest)
                              = Some (acc * 10 ^ Z.of_nat n + v mod 10 ^ Z.of_nat n, rest)).
  { intros H. by rewrite H. }
  induction n as [|n IH]; intros acc; simpl.
  - rewrite Z.mod_1_r. f_equal. f_equal. lia.
  - rewrite digit_of_char by (apply Z.mod_pos_bound; lia). simpl. rewrite IH. f_equal. f_equal.
    rewrite Nat2Z.inj_succ, Z.pow_succ_r, (Z.mul_comm 10 (10 ^ _)), Z.rem_mul_r by lia. lia.
Qed.

Lemma get_field_zpad n v lo hi next rest :
  0 <= v < 10 ^ Z.of_nat n -> lo <= v <= hi ->
  get_field n lo hi next (zpad n v +:+ rest) =
  match next with
  | None => Some (v, rest)
  | Some c => match rest with
              | String c' r' => if Ascii.eqb c c' then Some (v, r') else None
              | EmptyString => None
              end
  end.
Proof.
  intros Hv Hb. unfold get_field. rewrite zpad_app by lia. simpl.
  rewrite Z.mod_small by done. by replace ((lo <=? v) && (v <=? hi)) with true
    by (symmetry; apply andb_true_iff; lia).
Qed.

Lemma get_field_sep n v lo hi c rest :
  0 <= v < 10 ^ Z.of_nat n -> lo <= v <= hi ->
  get_field n lo hi (Some c) (zpad n v +:+ String c rest) = Some (v, rest).
Proof. intros. rewrite get_field_zpad by done. by rewrite Ascii.eqb_refl. Qed.

Lemma get_field_last n v lo hi :
  0 <= v < 10 ^ Z.of_nat n -> lo <= v <= hi ->
  get_field n lo hi None (zpad n v) = Some (v, EmptyString).
Proof.
  intros. assert (E : forall s, s +:+ EmptyString = s) by (intros s; induction s as [|c s IH]; [done|exact (f_equal (String c) IH)]).
  rewrite <- (E (zpad n v)). by apply get_field_zpad.
Qed.


(** A year written with [%04d] does not start with a minus sign. *)
Lemma zpad_year_sign y s :
  0 <= y < 10000 ->
  match zpad 4 y +:+ s with
  | String "-"%char s' => (true, s')
  | _ => (false, zpad 4 y +:+ s)
  end = (false, zpad 4 y +:+ s).
Proof.
  intros Hy. simpl. set (k := y / 10 ^ Z.of_nat 3 mod 10).
  assert (Hk : 0 <= k < 10) by (apply Z.mod_pos_bound; lia). clearbody k.
  assert (k = 0 \/ k = 1 \/ k = 2 \/ k = 3 \/ k = 4 \/ k = 5 \/ k = 6 \/ k = 7 \/ k = 8 \/ k = 9)
    as Hk'' by lia.
  destruct_or! Hk''; subst k; reflexivity.
Qed.

Lemma days_in_month_le_31 y m : 1 <= m <= 12 -> days_in_month y m <= 31.
Proof. intros. unfold days_in_month. destruct (is_leap y); enum_month m; vm_compute; congruence. Qed.

(** ** Decoding an ordinal

    [_ord2ymd] splits [n - 1] into 400-year cycles [a], centuries [b],
    4-year cycles [c], years [e] and a day of the year [r]; the year is
    [400 a + 100 b + 4 c + e + 1].  Its last step, from the day of the
    year to a month and a day, is [md_of]. *)

Definition md_of (n : Z) (leapyear : bool) : Z * Z :=
  let month := Z.shiftr (n + 50) 5 in
  let preceding := at_index DAYS_BEFORE_MONTH month + Z.b2z ((2 <? month) && leapyear) in
  let '(month, preceding) :=
    if n <? preceding then
      (month - 1, preceding - (at_index DAYS_IN_MONTH (month - 1)
                               + Z.b2z ((month - 1 =? 2) && leapyear)))
    else (month, preceding) in
  (month, n - preceding + 1).

(** A representative year of each kind. *)
Definition rep_year (leapyear : bool) : Z := if leapyear then 4 else 1.

Definition md_ok (r : Z) (leapyear : bool) : bool :=
  let '(m, d) := md_of r leapyear in
  let y := rep_year leapyear in
  (1 <=? m) && (m <=? 12) && (1 <=? d) && (d <=? days_in_month y m) &&
  (days_before_month y m + d =? r + 1).

(** Every day of the year but the 366th, in both kinds of year. *)
Lemma md_ok_all : check_block (fun r => md_ok r false && md_ok r true) 365 0 = true.
Proof. reflexivity. Qed.

Lemma is_leap_rep y : days_in_month y = days_in_month (rep_year (is_leap y)) /\
                      days_before_month y = days_before_month (rep_year (is_leap y)).
Proof. unfold days_in_month, days_before_month. by destruct (is_leap y). Qed.

Lemma md_of_spec r y :
  0 <= r < 365 ->
  let '(m, d) := md_of r (is_leap y) in
  1 <= m <= 12 /\ 1 <= d <= days_in_month y m /\ days_before_month y m + d = r + 1.
Proof.
  intros Hr. pose proof (check_block_spec _ _ _ r md_ok_all ltac:(lia)) as H.
  apply andb_true_iff in H. destruct (is_leap_rep y) as [E1 E2].
  assert (Hm : md_ok r (is_leap y) = true) by (destruct (is_leap y); tauto).
  unfold md_ok in Hm. rewrite E1, E2. destruct (md_of r (is_leap y)) as [m d].
  rewrite !andb_true_iff, !Z.leb_le, Z.eqb_eq in Hm. lia.
Qed.

Lemma days_before_year_decomp a b c e :
  0 <= b <= 3 -> 0 <= c <= 24 -> 0 <= e <= 3 ->
  days_before_year (400 * a + 100 * b + 4 * c + e + 1) = 146097 * a + 36524 * b + 1461 * c + 365 * e.
Proof. intros. unfold days_before_year. Z.div_mod_to_equations. lia. Qed.

Lemma is_leap_decomp a b c e :
  0 <= b <= 3 -> 0 <= c <= 24 -> 0 <= e <= 3 ->
  is_leap (400 * a + 100 * b + 4 * c + e + 1) = (e =? 3) && (negb (c =? 24) || (b =? 3)).
Proof.
  intros. unfold is_leap.
  destruct (Z.eqb_spec e 3), (Z.eqb_spec c 24), (Z.eqb_spec b 3); simpl;
  repeat match goal with |- context [?x mod ?k =? 0] => destruct (Z.eqb_spec (x mod k) 0) end;
  simpl; try reflexivity; exfalso; Z.div_mod_to_equations; lia.
Qed.

Lemma ord2ymd_spec n :
  1 <= n ->
  let '(y, m, d) := ord2ymd n in
  1 <= y /\ 1 <= m <= 12 /\ 1 <= d <= days_in_month y m /\ ymd2ord y m d = n.
Proof.
  intros Hn. unfold ord2ymd. change DI400Y with 146097. change DI100Y with 36524. change DI4Y with 1461.
  set (t := n - 1). assert (Ht : t = n - 1) by reflexivity. clearbody t.
  pose proof (Z.div_mod t 146097 ltac:(lia)). pose proof (Z.mod_pos_bound t 146097 ltac:(lia)).
  assert (0 <= t / 146097) by (apply Z.div_pos; lia).
  set (a := t / 146097) in *. set (r := t mod 146097) in *.
  pose proof (Z.div_mod r 36524 ltac:(lia)). pose proof (Z.mod_pos_bound r 36524 ltac:(lia)).
  set (b := r / 36524) in *. set (r2 := r mod 36524) in *.
  pose proof (Z.div_mod r2 1461 ltac:(lia)). pose proof (Z.mod_pos_bound r2 1461 ltac:(lia)).
  set (c := r2 / 1461) in *. set (r3 := r2 mod 1461) in *.
  pose proof (Z.div_mod r3 365 ltac:(lia)). pose proof (Z.mod_pos_bound r3 365 ltac:(lia)).
  set (e := r3 / 365) in *. set (r1 := r3 mod 365) in *.
  clearbody a r b r2 c r3 e r1.
  assert (0 <= b <= 4 /\ 0 <= c <= 24 /\ 0 <= e <= 4) by lia.
  destruct (Z.eqb_spec e 4) as [He|He]; [|destruct (Z.eqb_spec b 4) as [Hb|Hb]]; simpl.
  - replace (a * 400 + 1 + b * 100 + c * 4 + e - 1) with (400 * a + 100 * b + 4 * c + 3 + 1) by lia.
    unfold ymd2ord, days_before_month, days_in_month.
    rewrite days_before_year_decomp, is_leap_decomp by lia.
    destruct (Z.eqb_spec c 24); [lia|]. simpl.
    change (at_index DAYS_IN_MONTH 12) with 31. change (at_index DAYS_BEFORE_MONTH 12) with 334. lia.
  -     replace (a * 400 + 1 + b * 100 + c * 4 + e - 1) with (400 * a + 100 * 3 + 4 * 24 + 3 + 1) by lia.
    unfold ymd2ord, days_before_month, days_in_month.
    rewrite days_before_year_decomp, is_leap_decomp by lia. simpl.
    change (at_index DAYS_IN_MONTH 12) with 31. change (at_index DAYS_BEFORE_MONTH 12) with 334. lia.
  - set (y := a * 400 + 1 + b * 100 + c * 4 + e).
    assert (Hy : y = 400 * a + 100 * b + 4 * c + e + 1) by (unfold y; lia).
    pose proof (md_of_spec r1 y ltac:(lia)) as Hmd.
    rewrite Hy, is_leap_decomp in Hmd by lia. rewrite <- Hy in Hmd.
    unfold md_of in Hmd. revert Hmd.
    destruct (_ <? _); intros (Hm & Hd & Hord); (split; [lia|]); (split; [lia|]); (split; [lia|]);
      unfold ymd2ord; rewrite Hy, days_before_year_decomp by lia; rewrite <- Hy; lia.
Qed.

End PyDate.

(** ** SQLite's day numbers are Python's ordinals plus a constant *)

Module Agreement.
Import PyDate.

Definition jd_of (d : date) : Z := jd_day_number (mkDateTime (year d) (month d) (day d)).

(** The shift between the two day counts: [jd_of] of 0001-01-01. *)
Definition JD_SHIFT : Z := 1722949.

(** Whether a year is a leap year, from the floors of the divisions the
    two day counts use. *)
Lemma is_leap_div y :
  Z.b2z (is_leap y) = (y / 4 - (y - 1) / 4) - (y / 100 - (y - 1) / 100) + (y / 400 - (y - 1) / 400).
Proof.
  unfold is_leap.
  destruct (Z.eqb_spec (y mod 4) 0), (Z.eqb_spec (y mod 100) 0), (Z.eqb_spec (y mod 400) 0);
    simpl; Z.div_mod_to_equations; lia.
Qed.

(** computeJD's day number of a date of year 1 or later is its Python
    ordinal plus [JD_SHIFT], month by month. *)
Lemma jd_of_ymd2ord y m d :
  1 <= y -> 1 <= m <= 12 -> jd_of (mkDate y m d) = ymd2ord y m d + JD_SHIFT.
Proof.
  intros Hy Hm. unfold jd_of, jd_day_number, ymd2ord, days_before_month, days_before_year, JD_SHIFT; simpl.
  pose proof (is_leap_div y).
  enum_month m; cbn -[Z.quot Z.div is_leap];
    rewrite ?Z.quot_div_nonneg by (try apply Z.div_pos; lia);
    (destruct (is_leap y); simpl in *; Z.div_mod_to_equations; lia).
Qed.

Lemma ok_at_spec n :
  1 <= n ->
  1 <= year (fromordinal n) /\ valid_md (fromordinal n) = true /\
  toordinal (fromordinal n) = n /\ jd_of (fromordinal n) = n + JD_SHIFT.
Proof.
  intros Hn. pose proof (ord2ymd_spec n Hn) as H. unfold fromordinal, toordinal.
  destruct (ord2ymd n) as [[y m] d]. simpl. destruct H as (Hy & Hm & Hd & Ho).
  rewrite jd_of_ymd2ord, Ho by lia. split_and!; try done. apply valid_md_spec. simpl. lia.
Qed.

Lemma valid_date_spec d :
  valid_date d = true <-> 1 <= year d <= 9999 /\ valid_md d = true.
Proof.
  unfold valid_date. rewrite valid_md_spec, !andb_true_iff, !Z.leb_le. tauto.
Qed.

Lemma toordinal_pos d : valid_date d = true -> 1 <= toordinal d <= MAXORDINAL.
Proof.
  intros [Hy Hv]%valid_date_spec. pose proof (toordinal_bounds d Hv).
  pose proof (days_before_year_mono 1 (year d) ltac:(lia)).
  pose proof (days_before_year_mono (year d + 1) 10000 ltac:(lia)).
  change (days_before_year 1) with 0 in *. change (days_before_year 10000) with MAXORDINAL in *. lia.
Qed.

Lemma parse_isoformat d :
  valid_date d = true ->
  parseYyyyMmDd (isoformat d) = Some (mkDateTime (year d) (month d) (day d)).
Proof.
  intros [Hy [Hm Hd]%valid_md_spec]%valid_date_spec.
  pose proof (days_in_month_le_31 (year d) (month d) Hm).
  change (isoformat d) with
    (zpad 4 (year d) +:+ String "-" (zpad 2 (month d) +:+ String "-" (zpad 2 (day d)))).
  unfold parseYyyyMmDd. rewrite zpad_year_sign by lia.
  rewrite get_field_sep by (cbn; lia). cbn -[zpad get_field].
  rewrite get_field_sep by (cbn; lia). cbn -[zpad get_field].
  rewrite get_field_last by (cbn; lia). reflexivity.
Qed.

Lemma toordinal_roundtrip d : valid_date d = true -> fromordinal (toordinal d) = d.
Proof.
  intros Hd. pose proof (toordinal_pos d Hd) as Hn.
  destruct (ok_at_spec (toordinal d) ltac:(lia)) as (_ & Hv & Ho & _).
  apply valid_date_spec in Hd as [_ Hd]. by apply toordinal_inj.
Qed.

Lemma fromordinal_spec n :
  1 <= n <= MAXORDINAL ->
  valid_date (fromordinal n) = true /\ toordinal (fromordinal n) = n.
Proof.
  intros Hn. destruct (ok_at_spec n ltac:(lia)) as (Hy & Hv & Ho & _).
  split; [|done]. apply valid_date_spec. split; [|done]. split; [done|].
  pose proof (toordinal_bounds _ Hv). destruct (Z_le_gt_dec (year (fromordinal n)) 9999); [done|].
  pose proof (days_before_year_mono 10000 (year (fromordinal n)) ltac:(lia)).
  change (days_before_year 10000) with MAXORDINAL in *. lia.
Qed.

(** C24. [_ymd2ord] and [_ord2ymd] are inverse bijections between the
    valid dates (years 1 to 9999) and the ordinals 1 to MAXORDINAL. *)
Theorem ordinal_bijection :
  (forall d, valid_date d = true ->
     1 <= toordinal d <= MAXORDINAL /\ fromordinal (toordinal d) = d) /\
  (forall n, 1 <= n <= MAXORDINAL ->
     valid_date (fromordinal n) = true /\ toordinal (fromordinal n) = n).
Proof.
  split; [|exact fromordinal_spec].
  intros d Hd. split; [exact (toordinal_pos d Hd)|exact (toordinal_roundtrip d Hd)].
Qed.

Lemma jd_of_valid d : valid_date d = true -> jd_of d = toordinal d + JD_SHIFT.
Proof.
  intros Hd. pose proof (toordinal_pos d Hd).
  destruct (ok_at_spec (toordinal d) ltac:(lia)) as (_ & _ & _ & Hj).
  by rewrite toordinal_roundtrip in Hj.
Qed.

Lemma julianday_iso d :
  valid_date d = true ->
  julianday (isoformat d) = Some (((toordinal d + JD_SHIFT) * 86400000 - 131716800000) # 86400000).
Proof.
  intros Hd. pose proof (toordinal_pos d Hd). pose proof (jd_of_valid d Hd) as Hj.
  pose proof Hd as [Hy _]%valid_date_spec.
  unfold julianday. rewrite parse_isoformat by done. simpl.
  unfold computeJD; simpl. replace ((year d <? -4713) || (9999 <? year d)) with false
    by (symmetry; apply orb_false_iff; split; apply Z.ltb_ge; lia).
  assert (Hv : validJulianDay ((toordinal d + JD_SHIFT) * 86400000 - 131716800000) = true)
    by (unfold validJulianDay, JD_SHIFT, MAXORDINAL in *; apply andb_true_iff; split; apply Z.leb_le; lia).
  unfold jd_of in Hj. rewrite Hj. simpl. by rewrite Hv.
Qed.

Lemma julianday_iso_eq d :
  valid_date d = true ->
  (((toordinal d + JD_SHIFT) * 86400000 - 131716800000) # 86400000
   == inject_Z (toordinal d) + (3442849 # 2))%Q.
Proof. intros _. unfold Qeq, JD_SHIFT; simpl. lia. Qed.

(** C25. SQLite's [julianday] of the ISO text of a valid Python date is
    the date's ordinal plus 1721424.5. *)
Theorem julianday_isoformat d :
  valid_date d = true ->
  exists q, julianday (isoformat d) = Some q /\ (q == inject_Z (toordinal d) + (3442849 # 2))%Q.
Proof. intros Hd. rewrite julianday_iso by done. eexists. split; [reflexivity|]. by apply julianday_iso_eq. Qed.

(** The elapsed time of the SELECT list on two ISO dates: whole days,
    the difference of the Python ordinals. *)
Lemma elapsed_isoformat d1 d2 :
  valid_date d1 = true -> valid_date d2 = true ->
  exists q, (julianday (isoformat d2) -ₙ julianday (isoformat d1))%sql = Some q /\
            (q == inject_Z (toordinal d2 - toordinal d1))%Q.
Proof.
  intros H1 H2. rewrite (julianday_iso d1 H1), (julianday_iso d2 H2).
  eexists. split; [reflexivity|].
  rewrite (julianday_iso_eq d1 H1), (julianday_iso_eq d2 H2), <- Z.add_opp_r, inject_Z_plus, inject_Z_opp.
  ring.
Qed.

(** C23. Counting days, SQLite agrees with Python: for two valid dates
    written as ISO text, CAST(julianday(later) - julianday(earlier) AS
    INTEGER) is the difference of their ordinals, and with a lead time
    [l] subtracted it is that difference minus [l]. *)
Theorem julianday_elapsed d1 d2 l :
  valid_date d1 = true -> valid_date d2 = true ->
  ncast_int (julianday (isoformat d2) -ₙ julianday (isoformat d1))%sql
    = Some (toordinal d2 - toordinal d1) /\
  ncast_int (nsub_int (julianday (isoformat d2) -ₙ julianday (isoformat d1))%sql (Some l))
    = Some (toordinal d2 - toordinal d1 - l).
Proof.
  intros H1 H2. destruct (elapsed_isoformat d1 d2 H1 H2) as [q [Eq Hq]]. rewrite Eq.
  unfold ncast_int; simpl. split; f_equal; [by rewrite Hq, cast_int_inject_Z|by apply cast_int_sub_int].
Qed.

Lemma add_days_some d k d' :
  add_days d k = Some d' ->
  1 <= toordinal d + k <= MAXORDINAL /\ valid_date d' = true /\ toordinal d' = toordinal d + k.
Proof.
  unfold add_days. destruct (Z.ltb_spec 0 (toordinal d + k)), (Z.leb_spec (toordinal d + k) MAXORDINAL);
    simpl; try discriminate. intros E. invc E. split; [lia|]. apply fromordinal_spec. lia.
Qed.

Lemma add_days_none d k :
  add_days d k = None -> toordinal d + k < 1 \/ MAXORDINAL < toordinal d + k.
Proof.
  unfold add_days. destruct (Z.ltb_spec 0 (toordinal d + k)), (Z.leb_spec (toordinal d + k) MAXORDINAL);
    simpl; try discriminate; lia.
Qed.

(** C26. [datetime + timedelta(days=k)]: a valid date [k] days later
    when the sum of ordinals lies in [1, MAXORDINAL], [OverflowError]
    otherwise. *)
Theorem add_days_spec d k :
  match add_days d k with
  | Some d' => 1 <= toordinal d + k <= MAXORDINAL /\
               valid_date d' = true /\ toordinal d' = toordinal d + k
  | None => toordinal d + k < 1 \/ MAXORDINAL < toordinal d + k
  end.
Proof.
  destruct (add_days d k) eqn:E; [exact (add_days_some _ _ _ E)|exact (add_days_none _ _ E)].
Qed.

Lemma add_days_in_range d k :
  1 <= toordinal d + k <= MAXORDINAL ->
  exists d', add_days d k = Some d' /\ valid_date d' = true /\ toordinal d' = toordinal d + k.
Proof.
  intros Hk. destruct (add_days d k) as [d'|] eqn:E.
  - exists d'. split; [done|]. apply add_days_some in E. tauto.
  - apply add_days_none in E. lia.
Qed.

(** The text of [d + timedelta(days=k)] and of [d], read back by
    SQLite: [julianday] of the first minus [julianday] of the second,
    cast to INTEGER, is [k]; minus a lead time [l], it is [k - l]. *)
Lemma elapsed_add_days d k d' l :
  valid_date d = true -> add_days d k = Some d' ->
  ncast_int (julianday (isoformat d') -ₙ julianday (isoformat d))%sql = Some k /\
  ncast_int (nsub_int (julianday (isoformat d') -ₙ julianday (isoformat d))%sql (Some l))
    = Some (k - l).
Proof.
  intros Hd E. destruct (add_days_some d k d' E) as (_ & Hd' & Ho).
  destruct (elapsed_isoformat d d' Hd Hd') as [q [Eq Hq]]. rewrite Eq. simpl.
  rewrite Ho in Hq. replace (toordinal d + k - toordinal d) with k in Hq by lia.
  unfold ncast_int; simpl. split; f_equal; [by rewrite Hq, cast_int_inject_Z|by apply cast_int_sub_int].
Qed.

(** ** Instances *)

Definition order_day : date := mkDate 2023 1 1.
Definition delivery_day : date := mkDate 2023 1 20.

Lemma julianday_isoformat_witness :
  valid_date delivery_day = true /\
  exists q, julianday (isoformat delivery_day) = Some q /\
            (q == inject_Z (toordinal delivery_day) + (3442849 # 2))%Q.
Proof.
  assert (H : valid_date delivery_day = true) by reflexivity.
  split; [exact H|exact (julianday_isoformat delivery_day H)].
Defined.

(** The specification's example on Python's side: ordered 2023-01-01,
    delivered 2023-01-20, lead time 15: 19 days elapsed, delay 4. *)
Lemma julianday_elapsed_witness :
  valid_date order_day = true /\ valid_date delivery_day = true /\
  ncast_int (julianday (isoformat delivery_day) -ₙ julianday (isoformat order_day))%sql
    = Some (toordinal delivery_day - toordinal order_day) /\
  ncast_int (nsub_int (julianday (isoformat delivery_day) -ₙ julianday (isoformat order_day))%sql
               (Some 15))
    = Some (toordinal delivery_day - toordinal order_day - 15) /\
  toordinal delivery_day - toordinal order_day = 19.
Proof.
  assert (H1 : valid_date order_day = true) by reflexivity.
  assert (H2 : valid_date delivery_day = true) by reflexivity.
  split; [exact H1|]. split; [exact H2|].
  destruct (julianday_elapsed order_day delivery_day 15 H1 H2) as [A B].
  split; [exact A|]. split; [exact B|]. reflexivity.
Defined.

End Agreement.
