(* ===== verification/Store.v ===== *)
(** * The entity store: the four SQLite tables of [setup_database]

    src/scripts/demo_sqlite.py, lines 5-73 and 89-92.  Each table is
    its list of rows in rowid order together with its AUTOINCREMENT
    counter (the [sqlite_sequence] entry, removed by DROP TABLE).  A row
    gets the rowid [max(counter, largest rowid) + 1].  The nullable
    columns are options, the foreign keys are plain nullable integers
    (SQLite does not enforce REFERENCES unless asked to). *)

From Stdlib Require Import ZArith String.
From stdpp Require Import base list strings.
From S2P Require Import Prelude.

Local Open Scope Z_scope.

(** ** Rows *)

Record Supplier := mkSupplier {
  supplier_id : Z; sup_name : string; sup_location : option string;
  lead_time_days : option Z }.

Record Product := mkProduct {
  product_id : Z; prod_name : string; category : option string }.

Record Warehouse := mkWarehouse {
  warehouse_id : Z; wh_name : string; wh_location : option string }.

Record Shipment := mkShipment {
  shipment_id : Z; sh_product_id : option Z; sh_supplier_id : option Z;
  sh_warehouse_id : option Z; quantity : Z; order_date : string;
  delivery_date : option string }.

(** The INTEGER PRIMARY KEY of a row. *)
Class HasRowid (R : Type) := row_id : R -> Z.

#[export] Instance supplier_rowid : HasRowid Supplier := supplier_id.
#[export] Instance product_rowid : HasRowid Product := product_id.
#[export] Instance warehouse_rowid : HasRowid Warehouse := warehouse_id.
#[export] Instance shipment_rowid : HasRowid Shipment := shipment_id.

(** ** Tables with AUTOINCREMENT *)

Record Table (R : Type) := mkTable { rows : list R; autoinc : Z }.
Arguments mkTable {R}. Arguments rows {R}. Arguments autoinc {R}.

Definition empty_table {R} : Table R := mkTable [] 0.

Section Tables.
Context {R : Type} `{HasRowid R}.

Definition max_rowid (l : list R) : Z := foldr Z.max 0 (map row_id l).

(** [INSERT INTO t (...) VALUES (...)] with the rowid chosen by
    AUTOINCREMENT; [mk] builds the row from its new rowid. *)
Definition insert_row (mk : Z -> R) (t : Table R) : Table R :=
  let id := Z.max (autoinc t) (max_rowid (rows t)) + 1 in
  mkTable (rows t ++ [mk id]) id.

(** [cursor.executemany(sql, params)]: one INSERT per tuple, in order. *)
Definition executemany {P} (mk : P -> Z -> R) (ps : list P) (t : Table R) : Table R :=
  foldl (fun t p => insert_row (mk p) t) t ps.

(** The rows whose key equals [k]: the right side of an equi-join on
    the primary key (a NULL key joins nothing). *)
Definition rows_with_id (t : Table R) (k : option Z) : list R :=
  match k with
  | None => []
  | Some k => filter (fun r => row_id r = k) (rows t)
  end.

(** The invariant of a table filled only by inserts: rowids are
    1, 2, ..., n in order and the counter is n. *)
Definition dense (t : Table R) : Prop :=
  map row_id (rows t) = map Z.of_nat (seq 1 (length (rows t))) /\
  autoinc t = Z.of_nat (length (rows t)).
End Tables.

(** ** The database of setup_database *)

Record Db := mkDb {
  Suppliers : Table Supplier; Products : Table Product;
  Warehouses : Table Warehouse; Shipments : Table Shipment }.

(** Lines 9-47: DROP TABLE and CREATE TABLE leave four empty tables. *)
Definition setup_schema : Db := mkDb empty_table empty_table empty_table empty_table.

Definition mk_supplier (p : string * string * Z) (id : Z) : Supplier :=
  let '(name, loc, lt) := p in mkSupplier id name (Some loc) (Some lt).

Definition mk_product (p : string * string) (id : Z) : Product :=
  let '(name, cat) := p in mkProduct id name (Some cat).

Definition mk_warehouse (p : string * string) (id : Z) : Warehouse :=
  let '(name, loc) := p in mkWarehouse id name (Some loc).

(** Lines 50-56. *)
Definition suppliers_seed : list (string * string * Z) :=
  [("Global Tech Parts", "San Jose, CA", 5);
   ("Precision Manufacturing", "Detroit, MI", 10);
   ("Asia Logistics Hub", "Singapore", 15);
   ("Euro Component Co", "Berlin, Germany", 12);
   ("Coastal Supplies", "Seattle, WA", 7)]%string.

(** Lines 59-65. *)
Definition products_seed : list (string * string) :=
  [("Microprocessor X1", "Electronics");
   ("Industrial Grade Steel", "Raw Materials");
   ("LCD Display Panel", "Electronics");
   ("Aluminum Casing", "Components");
   ("Lithium Battery Pack", "Components")]%string.

(** Lines 68-72. *)
Definition warehouses_seed : list (string * string) :=
  [("East Coast Distribution Center", "Newark, NJ");
   ("West Coast Hub", "Long Beach, CA");
   ("Central Logistics Base", "Memphis, TN")]%string.

(** Lines 57, 66, 73: the three executemany calls, in this order. *)
Definition seed_db (db : Db) : Db :=
  mkDb (executemany mk_supplier suppliers_seed (Suppliers db))
       (executemany mk_product products_seed (Products db))
       (executemany mk_warehouse warehouses_seed (Warehouses db))
       (Shipments db).

(** The values of one shipment INSERT (lines 89-92): product, supplier
    and warehouse ids, quantity, order date and delivery date text. *)
Record ShipmentValues := mkShipmentValues {
  sv_product : Z; sv_supplier : Z; sv_warehouse : Z; sv_qty : Z;
  sv_order : string; sv_delivery : string }.

Definition mk_shipment (v : ShipmentValues) (id : Z) : Shipment :=
  mkShipment id (Some (sv_product v)) (Some (sv_supplier v)) (Some (sv_warehouse v))
             (sv_qty v) (sv_order v) (Some (sv_delivery v)).

Definition insert_shipment (v : ShipmentValues) (db : Db) : Db :=
  mkDb (Suppliers db) (Products db) (Warehouses db)
       (insert_row (mk_shipment v) (Shipments db)).

(** ** Lemmas on AUTOINCREMENT tables *)

Lemma foldr_max_start (a : Z) (l : list Z) :
  0 <= a -> foldr Z.max a l = Z.max a (foldr Z.max 0 l).
Proof. intros Ha. induction l as [|x l IH]; simpl; lia. Qed.

Lemma foldr_max_seq (n : nat) :
  foldr Z.max 0 (map Z.of_nat (seq 1 n)) = Z.of_nat n.
Proof.
  induction n as [|n IH]; [done|].
  rewrite seq_S, map_app, foldr_app; simpl.
  rewrite foldr_max_start by lia. rewrite IH. lia.
Qed.

Lemma empty_table_dense {R} `{HasRowid R} : dense (@empty_table R).
Proof. split; reflexivity. Qed.

Section DenseTables.
Context {R P : Type} `{HasRowid R} (mk : P -> Z -> R).
Hypothesis mk_id : forall p id, row_id (mk p id) = id.

Lemma max_rowid_dense (t : Table R) :
  dense t -> max_rowid (rows t) = Z.of_nat (length (rows t)).
Proof. intros [Hids _]. unfold max_rowid. rewrite Hids. apply foldr_max_seq. Qed.

Lemma insert_row_rows (p : P) (t : Table R) :
  dense t -> rows (insert_row (mk p) t) = rows t ++ [mk p (Z.of_nat (length (rows t)) + 1)].
Proof.
  intros Hd. unfold insert_row; simpl.
  rewrite max_rowid_dense by done. destruct Hd as [_ ->]. by rewrite Z.max_id.
Qed.

(** Inserting keeps rowids dense. *)
Lemma insert_row_dense (p : P) (t : Table R) : dense t -> dense (insert_row (mk p) t).
Proof.
  intros Hd. pose proof (insert_row_rows p t Hd) as Hr.
  destruct Hd as [Hids Hseq]. split.
  - rewrite Hr, length_app, map_app, Hids; simpl.
    rewrite Nat.add_1_r, seq_S, map_app; simpl. rewrite mk_id. do 2 f_equal. lia.
  - unfold insert_row; simpl. rewrite length_app; simpl.
    pose proof (max_rowid_dense t (conj Hids Hseq)). lia.
Qed.

(** C19. Inserting any tuples with executemany into a table whose
    rowids are 1..n in order leaves rowids 1..n+k in order, with the
    AUTOINCREMENT counter at n+k. *)
Lemma executemany_dense (ps : list P) (t : Table R) :
  dense t -> dense (executemany mk ps t).
Proof.
  revert t. induction ps as [|p ps IH]; intros t Hd; simpl; [done|].
  apply IH, insert_row_dense, Hd.
Qed.

(** executemany appends one row per tuple, numbered from the next rowid. *)
Lemma executemany_rows (ps : list P) (t : Table R) :
  dense t ->
  rows (executemany mk ps t) =
  rows t ++ zip_with mk ps (map (fun i => Z.of_nat (length (rows t) + i)) (seq 1 (length ps))).
Proof.
  revert t. induction ps as [|p ps IH]; intros t Hd; simpl; [by rewrite app_nil_r|].
  rewrite IH by (by apply insert_row_dense). rewrite insert_row_rows by done.
  rewrite <- app_assoc, length_app; simpl. f_equal. f_equal; [f_equal; lia|].
  rewrite <- (seq_shift (length ps) 1), map_map. f_equal. apply map_ext. intros i. lia.
Qed.

Lemma filter_ids_none (ps : list P) (s : nat) (k : Z) :
  (k < Z.of_nat s \/ Z.of_nat (s + length ps) <= k) ->
  filter (fun r => row_id r = k) (zip_with mk ps (map Z.of_nat (seq s (length ps)))) = [].
Proof.
  revert s. induction ps as [|q ps IH]; intros s Hk; [done|]. simpl.
  rewrite filter_cons_False by (rewrite mk_id; simpl in Hk; lia).
  apply IH. simpl in Hk. lia.
Qed.

Lemma filter_ids_at (ps : list P) (s i : nat) (p : P) :
  ps !! i = Some p ->
  filter (fun r => row_id r = Z.of_nat (s + i)) (zip_with mk ps (map Z.of_nat (seq s (length ps))))
  = [mk p (Z.of_nat (s + i))].
Proof.
  revert s i. induction ps as [|q ps IH]; intros s [|i] Hi; try discriminate; simpl.
  - invc Hi. rewrite filter_cons_True by (rewrite mk_id; lia).
    rewrite Nat.add_0_r, filter_ids_none by lia. done.
  - rewrite filter_cons_False by (rewrite mk_id; lia).
    replace (s + S i)%nat with (S s + i)%nat by lia. by apply IH.
Qed.

(** C18. Insert/lookup round trip: in a fresh table filled by
    executemany, the primary-key lookup of rowid [i + 1] finds exactly
    the row built from the [i]-th tuple: the 1-based positional ids the
    shipments use resolve to the entities in insertion order. *)
Lemma executemany_lookup (ps : list P) (i : nat) (p : P) :
  ps !! i = Some p ->
  rows_with_id (executemany mk ps empty_table) (Some (Z.of_nat (S i))) = [mk p (Z.of_nat (S i))].
Proof.
  intros Hi. unfold rows_with_id. rewrite executemany_rows by apply empty_table_dense.
  simpl. replace (map _ _) with (map Z.of_nat (seq 1 (length ps))).
  - exact (filter_ids_at ps 1 i p Hi).
  - apply map_ext. intros j. reflexivity.
Qed.

Lemma executemany_lookup_none (ps : list P) (k : Z) :
  (k < 1 \/ Z.of_nat (length ps) < k) ->
  rows_with_id (executemany mk ps empty_table) (Some k) = [].
Proof.
  intros Hk. unfold rows_with_id. rewrite executemany_rows by apply empty_table_dense.
  simpl. replace (map _ _) with (map Z.of_nat (seq 1 (length ps))).
  - apply filter_ids_none. lia.
  - apply map_ext. intros j. reflexivity.
Qed.
End DenseTables.

(** ** Concrete instances *)

Lemma mk_supplier_id p id : row_id (mk_supplier p id) = id.
Proof. by destruct p as [[? ?] ?]. Qed.

Lemma executemany_lookup_witness :
  suppliers_seed !! 2%nat = Some ("Asia Logistics Hub", "Singapore", 15)%string /\
  rows_with_id (executemany mk_supplier suppliers_seed empty_table) (Some (Z.of_nat 3))
  = [mk_supplier ("Asia Logistics Hub", "Singapore", 15)%string (Z.of_nat 3)].
Proof.
  assert (Hi : suppliers_seed !! 2%nat = Some ("Asia Logistics Hub", "Singapore", 15)%string)
    by reflexivity.
  split; [exact Hi|].
  exact (executemany_lookup mk_supplier mk_supplier_id suppliers_seed 2 _ Hi).
Defined.

Lemma executemany_dense_witness :
  dense (@empty_table Supplier) /\ dense (executemany mk_supplier suppliers_seed empty_table).
Proof.
  assert (Hd : dense (@empty_table Supplier)) by (split; reflexivity).
  split; [exact Hd|].
  exact (executemany_dense mk_supplier mk_supplier_id suppliers_seed empty_table Hd).
Defined.
