(* ===== verification/Derive.v ===== *)
(** * The delay deriver: the [Shipment_Delays] common table expression

    src/scripts/demo_sqlite.py, lines 106-123: every shipment is joined
    with its product, supplier and warehouse (inner joins on the primary
    keys), and gets [actual_lead_time = CAST(julianday(delivery) -
    julianday(order) AS INTEGER)] and [delay_days = CAST((julianday(delivery)
    - julianday(order)) - lead_time_days AS INTEGER)].  The joins are the
    list monad over the tables, in the order of the FROM clause. *)

From Stdlib Require Import ZArith QArith String.
From stdpp Require Import base list strings.
From S2P Require Import Prelude SqlDate Store.

Local Open Scope Z_scope.

Record DelayRow := mkDelayRow {
  dr_shipment_id : Z; product_name : string; supplier_name : string;
  warehouse_name : string; dr_order_date : string; dr_delivery_date : option string;
  promised_lead_time : option Z; actual_lead_time : option Z; delay_days : option Z }.

Definition julianday_opt (o : option string) : option Q := s ← o; julianday s.

(** The SELECT list of the CTE for one joined tuple. *)
Definition delay_row (s : Shipment) (p : Product) (sup : Supplier) (w : Warehouse) : DelayRow :=
  let elapsed := (julianday_opt (delivery_date s) -ₙ julianday (order_date s))%sql in
  mkDelayRow (shipment_id s) (prod_name p) (sup_name sup) (wh_name w)
    (order_date s) (delivery_date s) (lead_time_days sup)
    (ncast_int elapsed)
    (ncast_int (nsub_int elapsed (lead_time_days sup))).

(** FROM Shipments s JOIN Products p ... JOIN Suppliers sup ... JOIN Warehouses w ... *)
Definition shipment_delays (db : Db) : list DelayRow :=
  s ← rows (Shipments db);
  p ← rows_with_id (Products db) (sh_product_id s);
  sup ← rows_with_id (Suppliers db) (sh_supplier_id s);
  w ← rows_with_id (Warehouses db) (sh_warehouse_id s);
  [delay_row s p sup w].

(** A shipment whose three references all resolve. *)
Definition resolves (db : Db) (s : Shipment) : bool :=
  bool_decide (rows_with_id (Products db) (sh_product_id s) <> []) &&
  bool_decide (rows_with_id (Suppliers db) (sh_supplier_id s) <> []) &&
  bool_decide (rows_with_id (Warehouses db) (sh_warehouse_id s) <> []).

(** The primary-key invariant of a table. *)
Definition key_unique {R} `{HasRowid R} (t : Table R) : Prop := NoDup (map row_id (rows t)).

Definition keys_unique (db : Db) : Prop :=
  key_unique (Suppliers db) /\ key_unique (Products db) /\ key_unique (Warehouses db).

(** ** Lemmas *)

Lemma filter_id_nil {R} `{HasRowid R} (l : list R) (k : Z) :
  k ∉ map row_id l -> filter (fun r => row_id r = k) l = [].
Proof.
  induction l as [|x l IH]; intros Hk; [done|]. simpl in Hk.
  rewrite filter_cons_False by (intros <-; apply Hk; left).
  apply IH. intros Hin. apply Hk. by right.
Qed.

(** With a primary key, an equi-join finds at most one row. *)
Lemma rows_with_id_at_most_one {R} `{HasRowid R} (t : Table R) (k : option Z) :
  key_unique t -> rows_with_id t k = [] \/ exists r, rows_with_id t k = [r].
Proof.
  unfold key_unique, rows_with_id. destruct k as [k|]; [|by left].
  generalize (rows t). intros l Hnd. induction l as [|x l IH]; [by left|].
  simpl in Hnd. apply NoDup_cons in Hnd as [Hx Hnd].
  destruct (decide (row_id x = k)) as [<-|Hne].
  - right. exists x. rewrite filter_cons_True by done. by rewrite filter_id_nil.
  - rewrite filter_cons_False by done. by apply IH.
Qed.

Lemma julianday_opt_some o q :
  julianday_opt o = Some q -> exists s, o = Some s /\ julianday s = Some q.
Proof. destruct o as [s|]; simpl; [eauto|discriminate]. Qed.

(** The elapsed time of a row, when defined, is a whole number of days. *)
Lemma elapsed_integral (d : option string) (o : string) (q : Q) :
  (julianday_opt d -ₙ julianday o)%sql = Some q ->
  exists k, (q == inject_Z k)%Q.
Proof.
  unfold nsub. destruct (julianday_opt d) as [qd|] eqn:Hd; [|discriminate].
  destruct (julianday o) as [qo|] eqn:Ho; [|discriminate]. simpl. intros Hq. invc Hq.
  apply julianday_opt_some in Hd as [sd [-> Hd]].
  destruct (julianday_sub _ _ _ _ Hd Ho) as (p1 & p2 & _ & _ & Heq). eauto.
Qed.

(** The delay of one joined tuple is its whole-day lead time minus the
    promised one, NULL when either is NULL. *)
Lemma delay_row_delay s p sup w :
  delay_days (delay_row s p sup w) =
  (a ← actual_lead_time (delay_row s p sup w);
   l ← promised_lead_time (delay_row s p sup w); Some (a - l)).
Proof.
  unfold delay_row; simpl. unfold ncast_int, nsub_int.
  destruct (julianday_opt (delivery_date s) -ₙ julianday (order_date s))%sql
    as [q|] eqn:Hq; [|done].
  destruct (elapsed_integral _ _ _ Hq) as [k Hk]. simpl.
  destruct (lead_time_days sup) as [l|]; [|done]. simpl.
  rewrite (cast_int_sub_int q k l Hk). rewrite Hk, cast_int_inject_Z. done.
Qed.

Lemma shipment_delays_elem (db : Db) (r : DelayRow) :
  r ∈ shipment_delays db ->
  exists s p sup w, s ∈ rows (Shipments db) /\ r = delay_row s p sup w /\
    p ∈ rows_with_id (Products db) (sh_product_id s) /\
    sup ∈ rows_with_id (Suppliers db) (sh_supplier_id s) /\
    w ∈ rows_with_id (Warehouses db) (sh_warehouse_id s).
Proof.
  unfold shipment_delays.
  intros (s & (p & (sup & (w & Hr%list_elem_of_singleton & Hw)%list_elem_of_bind
    & Hsup)%list_elem_of_bind & Hp)%list_elem_of_bind & Hs)%list_elem_of_bind.
  exists s, p, sup, w. auto.
Qed.

(** The rows one shipment contributes, seen through their ids. *)
Lemma shipment_join_ids (db : Db) (s : Shipment) :
  keys_unique db ->
  map dr_shipment_id
    (p ← rows_with_id (Products db) (sh_product_id s);
     sup ← rows_with_id (Suppliers db) (sh_supplier_id s);
     w ← rows_with_id (Warehouses db) (sh_warehouse_id s);
     [delay_row s p sup w])
  = if resolves db s then [shipment_id s] else [].
Proof.
  intros (Hs & Hp & Hw). unfold resolves.
  destruct (rows_with_id_at_most_one _ (sh_product_id s) Hp) as [-> | [p ->]]; [done|].
  destruct (rows_with_id_at_most_one _ (sh_supplier_id s) Hs) as [-> | [sup ->]];
    [by rewrite andb_false_r|].
  destruct (rows_with_id_at_most_one _ (sh_warehouse_id s) Hw) as [-> | [w ->]];
    [by rewrite andb_false_r|].
  done.
Qed.

(** ** Properties of the delay view *)

(** C1. For every row of the view, [delay_days] is exactly
    [actual_lead_time - promised_lead_time] in integer arithmetic (NULL
    when either side is NULL): no rounding happens before aggregation. *)
Theorem delay_days_exact (db : Db) (r : DelayRow) :
  r ∈ shipment_delays db ->
  delay_days r = (a ← actual_lead_time r; l ← promised_lead_time r; Some (a - l)).
Proof.
  intros (s & p & sup & w & _ & -> & _)%shipment_delays_elem. apply delay_row_delay.
Qed.

(** C2. The inner joins keep exactly the shipments whose product,
    supplier and warehouse ids all resolve, one row each, in shipment
    order; a dangling reference drops the shipment without any error. *)
Theorem shipment_delays_ids (db : Db) :
  keys_unique db ->
  map dr_shipment_id (shipment_delays db) =
  map shipment_id (filter (fun s => resolves db s = true) (rows (Shipments db))).
Proof.
  intros Hk. unfold shipment_delays. generalize (rows (Shipments db)).
  induction l as [|s l IH]; [done|].
  rewrite bind_cons, map_app, shipment_join_ids by done.
  destruct (resolves db s) eqn:Hr.
  - rewrite filter_cons_True by done. simpl. by rewrite IH.
  - rewrite filter_cons_False by congruence. exact IH.
Qed.

(** C14. When both dates parse, [actual_lead_time] is the difference of
    the two Julian day numbers. *)
Theorem actual_lead_time_days s p sup w d pd po qd qo :
  delivery_date s = Some d ->
  julianday d = Some qd -> julianday (order_date s) = Some qo ->
  parseYyyyMmDd d = Some pd -> parseYyyyMmDd (order_date s) = Some po ->
  actual_lead_time (delay_row s p sup w) = Some (jd_day_number pd - jd_day_number po).
Proof.
  intros Hd Hqd Hqo Hpd Hpo. unfold delay_row; simpl. rewrite Hd; simpl.
  rewrite Hqd, Hqo; simpl.
  destruct (julianday_sub _ _ _ _ Hqd Hqo) as (p1 & p2 & H1 & H2 & Heq).
  rewrite Hpd in H1; rewrite Hpo in H2. invc H1; invc H2.
  unfold ncast_int; simpl. by rewrite Heq, cast_int_inject_Z.
Qed.

(** ** The example of the specification, on the seeded database *)

(** The seeded database with some shipments inserted, in order. *)
Definition shipments_db (vs : list ShipmentValues) : Db :=
  foldl (fun db v => insert_shipment v db) (seed_db setup_schema) vs.

Definition example_shipment : ShipmentValues :=
  mkShipmentValues 1 3 2 500 "2023-01-01" "2023-01-20".

Definition example_db : Db := insert_shipment example_shipment (seed_db setup_schema).

Definition example_row : DelayRow :=
  mkDelayRow 1 "Microprocessor X1" "Asia Logistics Hub" "West Coast Hub"
    "2023-01-01" (Some "2023-01-20"%string) (Some 15) (Some 19) (Some 4).

Lemma delay_days_exact_witness :
  example_row ∈ shipment_delays example_db /\
  delay_days example_row =
  (a ← actual_lead_time example_row; l ← promised_lead_time example_row; Some (a - l)).
Proof.
  assert (E : shipment_delays example_db = [example_row]) by (vm_compute; reflexivity).
  assert (Hin : example_row ∈ shipment_delays example_db)
    by (rewrite E; apply list_elem_of_singleton; reflexivity).
  split; [exact Hin | exact (delay_days_exact example_db example_row Hin)].
Defined.

Lemma example_keys_unique : keys_unique example_db.
Proof.
  unfold keys_unique, key_unique.
  split; [|split]; apply (bool_decide_unpack _); vm_compute; reflexivity.
Qed.

Lemma shipment_delays_ids_witness :
  keys_unique example_db /\
  map dr_shipment_id (shipment_delays example_db) =
  map shipment_id (filter (fun s => resolves example_db s = true) (rows (Shipments example_db))).
Proof.
  split; [exact example_keys_unique|].
  exact (shipment_delays_ids example_db example_keys_unique).
Defined.

Definition example_supplier : Supplier :=
  mkSupplier 3 "Asia Logistics Hub" (Some "Singapore"%string) (Some 15).

Lemma actual_lead_time_days_witness :
  actual_lead_time
    (delay_row (mk_shipment example_shipment 1) (mkProduct 1 "Microprocessor X1" None)
               example_supplier (mkWarehouse 2 "West Coast Hub" None))
  = Some (jd_day_number (mkDateTime 2023 1 20) - jd_day_number (mkDateTime 2023 1 1)).
Proof.
  apply (actual_lead_time_days _ _ _ _ "2023-01-20" (mkDateTime 2023 1 20)
           (mkDateTime 2023 1 1) (212540932800000 # 86400000) (212539291200000 # 86400000));
    vm_compute; reflexivity.
Defined.
