(* ===== verification/OrderBy.v ===== *)
(** * ORDER BY, LIMIT and RANK(): the SQL operators the reports use

    SQL fixes what ORDER BY returns only up to the order of rows with
    equal keys.  [Sorter] is that contract: a sort function whose
    result is a permutation of its input and sorted for every total
    preorder.  The reports are proved against the class; [isort_sorter],
    the stable insertion sort of the prelude, is the instance that
    evaluates them.  [top_by] is [ORDER BY key DESC LIMIT n] and
    [rank_rows] the RANK() window function of a list already in window
    order. *)

From Stdlib Require Import ZArith Sorted Permutation.
From stdpp Require Import base list.
From S2P Require Import Prelude.

Local Open Scope Z_scope.

Class Sorter := {
  sort_by : forall {A : Type}, (A -> A -> bool) -> list A -> list A;
  sort_by_perm : forall {A} (le : A -> A -> bool) (l : list A), sort_by le l ≡ₚ l;
  sort_by_sorted : forall {A} (le : A -> A -> bool) `{!BoolPreorder le} (l : list A),
      Sorted (le_rel le) (sort_by le l)
}.

#[export] Program Instance isort_sorter : Sorter := {| sort_by := @isort |}.
Next Obligation. intros A le l. apply isort_perm. Qed.
Next Obligation. intros A le Hle l. by apply isort_sorted. Qed.

(** [ORDER BY key DESC LIMIT n]. *)
Definition top_by `{Sorter} {A} (le : A -> A -> bool) (n : nat) (l : list A) : list A :=
  take n (sort_by (desc le) l).

(** ** RANK()

    SQLite's rank counts rows and keeps the count of the first row of
    each peer group (rankStepFunc / rankValueFunc): a row whose key
    ties with the previous row's gets the previous rank, any other row
    its own 1-based position. *)

Definition peers {A} (le : A -> A -> bool) (x y : A) : bool := le x y && le y x.

Fixpoint rank_from {A} (le : A -> A -> bool) (prev : option (A * Z)) (i : Z) (l : list A)
  : list (A * Z) :=
  match l with
  | [] => []
  | x :: l' =>
      let r := match prev with
               | Some (y, ry) => if peers le y x then ry else i
               | None => i
               end in
      (x, r) :: rank_from le (Some (x, r)) (i + 1) l'
  end.

Definition rank_rows {A} (le : A -> A -> bool) (l : list A) : list (A * Z) :=
  rank_from le None 1 l.

(** The declarative rank: one plus the number of rows strictly before. *)
Definition strictly_before {A} (le : A -> A -> bool) (y x : A) : bool :=
  le y x && negb (le x y).

Definition rank_of {A} (le : A -> A -> bool) (l : list A) (x : A) : Z :=
  1 + Z.of_nat (length (filter (fun y => strictly_before le y x = true) l)).

(** ** Lemmas on sorted lists *)

Section SortedLists.
Context {A : Type} (le : A -> A -> bool) `{!BoolPreorder le}.

Lemma le_rel_transitive : Relations_1.Transitive (le_rel le).
Proof. intros x y z. apply bp_trans. Qed.

Lemma sorted_strongly (l : list A) :
  Sorted (le_rel le) l -> StronglySorted (le_rel le) l.
Proof. apply Sorted_StronglySorted, le_rel_transitive. Qed.

Lemma strongly_sorted_app (l1 l2 : list A) x y :
  StronglySorted (le_rel le) (l1 ++ l2) -> x ∈ l1 -> y ∈ l2 -> le x y = true.
Proof.
  induction l1 as [|z l1 IH]; simpl; [intros _ Hx; by apply not_elem_of_nil in Hx|].
  intros Hs Hx Hy. apply StronglySorted_inv in Hs as [Hs Hall].
  apply elem_of_cons in Hx as [->|Hx]; [|by apply IH].
  rewrite Forall_forall in Hall. apply Hall, elem_of_app. by right.
Qed.

Lemma sorted_strongly_sub (pre suf : list A) :
  StronglySorted (le_rel le) (pre ++ suf) -> StronglySorted (le_rel le) suf.
Proof.
  induction pre as [|x pre IH]; simpl; [done|]. intros Hs. apply IH. by invc Hs.
Qed.

Lemma strongly_sorted_cons_le (x : A) (l : list A) y :
  StronglySorted (le_rel le) (x :: l) -> y ∈ l -> le x y = true.
Proof. intros Hs Hy. by apply (strongly_sorted_app [x] l x y); [| left |]. Qed.

Lemma length_filter_mono (P Q : A -> Prop) `{!forall x, Decision (P x)}
  `{!forall x, Decision (Q x)} (l : list A) :
  (forall x, x ∈ l -> P x -> Q x) -> (length (filter P l) <= length (filter Q l))%nat.
Proof.
  induction l as [|x l IH]; intros Himp; simpl; [lia|].
  rewrite !filter_cons. assert (IH' : (length (filter P l) <= length (filter Q l))%nat)
    by (apply IH; intros y Hy; apply Himp; by right).
  destruct (decide (P x)) as [Hp|Hp]; destruct (decide (Q x)) as [Hq|Hq]; simpl; try lia.
  exfalso. apply Hq, Himp; [left|exact Hp].
Qed.
End SortedLists.

Lemma sorted_take {A} (R : A -> A -> Prop) (n : nat) (l : list A) :
  Sorted R l -> Sorted R (take n l).
Proof.
  revert l. induction n as [|n IH]; intros [|x l] Hs; simpl; try constructor.
  - apply IH. by invc Hs.
  - invc Hs. destruct n as [|n], l as [|y l]; simpl; constructor. by invc H2.
Qed.

(** ** LIMIT after ORDER BY DESC *)

Section TopN.
Context `{Sorter} {A : Type} (le : A -> A -> bool) `{!BoolPreorder le}.

Lemma top_by_length n l : length (top_by le n l) = Nat.min n (length l).
Proof.
  unfold top_by. rewrite length_take, (Permutation_length (sort_by_perm _ _)). lia.
Qed.

Lemma top_by_sorted n l : Sorted (le_rel (desc le)) (top_by le n l).
Proof. apply sorted_take, sort_by_sorted. apply _. Qed.

(** The first [n] rows dominate every row left out. *)
Lemma top_by_split n l :
  exists rest, top_by le n l ++ rest ≡ₚ l /\
    (forall x y, x ∈ top_by le n l -> y ∈ rest -> le y x = true) /\
    (rest <> [] -> length (top_by le n l) = n).
Proof.
  exists (drop n (sort_by (desc le) l)). unfold top_by. split; [|split].
  - rewrite take_drop. apply sort_by_perm.
  - intros x y Hx Hy. pose proof (sort_by_sorted (desc le) l) as Hs.
    apply (sorted_strongly (desc le)) in Hs. rewrite <- (take_drop n) in Hs.
    exact (strongly_sorted_app (desc le) _ _ x y Hs Hx Hy).
  - intros Hne. rewrite length_take. destruct (decide (n < length (sort_by (desc le) l)))%nat.
    + lia.
    + exfalso. apply Hne. apply drop_ge. lia.
Qed.

Lemma top_by_elem n l x : x ∈ top_by le n l -> x ∈ l.
Proof.
  unfold top_by. intros Hx%elem_of_take. destruct Hx as [i [Hi _]].
  apply list_elem_of_lookup_2 in Hi. by rewrite (sort_by_perm (desc le) l) in Hi.
Qed.
End TopN.

(** ** RANK() agrees with its declarative definition *)

Section Rank.
Context {A : Type} (le : A -> A -> bool) `{!BoolPreorder le}.

Lemma strictly_before_peers y x z :
  peers le y x = true -> strictly_before le z y = strictly_before le z x.
Proof.
  unfold peers, strictly_before. intros [Hyx Hxy]%andb_prop.
  destruct (le z y) eqn:Hzy, (le z x) eqn:Hzx, (le y z) eqn:Hyz, (le x z) eqn:Hxz;
    simpl; try reflexivity; exfalso.
  - pose proof (bp_trans _ _ _ Hxy Hyz). congruence.
  - pose proof (bp_trans _ _ _ Hyx Hxz). congruence.
  - pose proof (bp_trans _ _ _ Hzy Hyx). congruence.
  - pose proof (bp_trans _ _ _ Hzy Hyx). congruence.
  - pose proof (bp_trans _ _ _ Hzx Hxy). congruence.
  - pose proof (bp_trans _ _ _ Hzx Hxy). congruence.
Qed.

Lemma rank_of_peers L y x : peers le y x = true -> rank_of le L y = rank_of le L x.
Proof.
  intros Hp. unfold rank_of. do 3 f_equal.
  apply list_filter_iff. intros z. by rewrite (strictly_before_peers y x z Hp).
Qed.

(** In window order only the rows before [x] can be strictly before it. *)
Lemma rank_of_sorted pre x suf :
  StronglySorted (le_rel le) (pre ++ x :: suf) ->
  rank_of le (pre ++ x :: suf) x =
  1 + Z.of_nat (length (filter (fun y => strictly_before le y x = true) pre)).
Proof.
  intros Hs. unfold rank_of. rewrite filter_app, (filter_none _ (x :: suf)), app_nil_r;
    [done|].
  intros z Hz. unfold strictly_before. rewrite andb_true_iff, negb_true_iff.
  apply elem_of_cons in Hz as [->|Hz]; [rewrite bp_refl; intuition congruence|].
  apply sorted_strongly_sub in Hs. intros [_ Hxz].
  rewrite (strongly_sorted_cons_le le x suf z Hs Hz) in Hxz. discriminate.
Qed.

(** Every row of [pre] is strictly before [x] when [x] does not tie
    with the last of them. *)
Lemma all_strictly_before pre y x suf :
  StronglySorted (le_rel le) (pre ++ x :: suf) -> last pre = Some y ->
  peers le y x = false ->
  filter (fun z => strictly_before le z x = true) pre = pre.
Proof.
  intros Hs [pre' ->]%last_Some Hp. apply filter_all. intros z Hz.
  rewrite <- app_assoc in Hs. simpl in Hs.
  assert (Hyx : le y x = true) by exact (strongly_sorted_app le (pre' ++ [y]) (x :: suf) y x
    ltac:(by rewrite <- app_assoc) ltac:(apply elem_of_app; right; left) ltac:(left)).
  assert (Hzy : le z y = true).
  { apply elem_of_app in Hz as [Hz|Hz].
    - exact (strongly_sorted_app le pre' (y :: x :: suf) z y Hs Hz ltac:(left)).
    - apply list_elem_of_singleton in Hz as ->. apply (bp_refl le). }
  unfold peers in Hp. rewrite Hyx in Hp; simpl in Hp.
  unfold strictly_before. rewrite (bp_trans _ _ _ Hzy Hyx); simpl.
  destruct (le x z) eqn:Hxz; [|done].
  rewrite (bp_trans _ _ _ Hxz Hzy) in Hp. discriminate.
Qed.

Lemma rank_from_fst prev i l : map fst (rank_from le prev i l) = l.
Proof. revert prev i. induction l as [|x l IH]; intros; simpl; f_equal; auto. Qed.

Lemma rank_from_spec suf pre prev :
  StronglySorted (le_rel le) (pre ++ suf) ->
  match prev with
  | None => pre = []
  | Some (y, ry) => last pre = Some y /\ ry = rank_of le (pre ++ suf) y
  end ->
  map snd (rank_from le prev (1 + Z.of_nat (length pre)) suf) = map (rank_of le (pre ++ suf)) suf.
Proof.
  revert pre prev. induction suf as [|x suf IH]; intros pre prev Hs Hprev; [done|]. simpl.
  match goal with |- ?r :: _ = _ => assert (Hr : r = rank_of le (pre ++ x :: suf) x) end.
  { destruct prev as [[y ry]|].
    - destruct Hprev as [Hlast ->]. destruct (peers le y x) eqn:Hp.
      + by apply rank_of_peers.
      + by rewrite (rank_of_sorted pre x suf Hs), (all_strictly_before pre y x suf Hs Hlast Hp).
    - subst pre. by rewrite (rank_of_sorted [] x suf Hs). }
  rewrite Hr. f_equal.
  replace (1 + Z.of_nat (length pre) + 1) with (1 + Z.of_nat (length (pre ++ [x])))
    by (rewrite length_app; simpl; lia).
  replace (pre ++ x :: suf) with ((pre ++ [x]) ++ suf) in * by (by rewrite <- app_assoc).
  apply IH; [done|]. split; [by rewrite last_snoc|reflexivity].
Qed.

(** RANK() as computed by the scan equals the declarative rank. *)
Lemma rank_rows_eq l :
  Sorted (le_rel le) l -> rank_rows le l = map (fun x => (x, rank_of le l x)) l.
Proof.
  intros Hs. apply (sorted_strongly le) in Hs.
  assert (Hsnd : map snd (rank_rows le l) = map (rank_of le l) l)
    by exact (rank_from_spec l [] None Hs eq_refl).
  pose proof (rank_from_fst None 1 l) as Hfst. unfold rank_rows in *.
  by apply map_fst_snd_eq.
Qed.

Lemma rank_of_ge_1 L x : 1 <= rank_of le L x.
Proof. unfold rank_of. lia. Qed.

(** A row that comes later in window order never has a smaller rank. *)
Lemma rank_of_mono L x y : le x y = true -> rank_of le L x <= rank_of le L y.
Proof.
  intros Hxy. unfold rank_of.
  enough ((length (filter (fun z => strictly_before le z x = true) L) <=
           length (filter (fun z => strictly_before le z y = true) L))%nat) by lia.
  apply length_filter_mono. intros z _. unfold strictly_before.
  rewrite !andb_true_iff, !negb_true_iff. intros [Hzx Hxz]. split.
  - exact (bp_trans _ _ _ Hzx Hxy).
  - destruct (le y z) eqn:Hyz; [|done]. by rewrite (bp_trans _ _ _ Hxy Hyz) in Hxz.
Qed.

(** The first row of the window order has rank 1. *)
Lemma rank_of_first x l : StronglySorted (le_rel le) (x :: l) -> rank_of le (x :: l) x = 1.
Proof. intros Hs. exact (rank_of_sorted [] x l Hs). Qed.

Lemma rank_of_perm L L' x : L ≡ₚ L' -> rank_of le L x = rank_of le L' x.
Proof. intros HP. unfold rank_of. by rewrite HP. Qed.
End Rank.
