(* ===== verification/GroupBy.v ===== *)
(** * GROUP BY and the aggregate functions of the reports

    SQLite evaluates [GROUP BY name] by sorting the rows on the group key
    (BINARY collation) and scanning runs of equal keys: [group_by] keeps
    an association list in ascending key order and inserts each row, in
    input order, into its group.  [grouped] is the contract of GROUP BY
    (one group per distinct key, holding exactly the rows with that key,
    none empty), independent of the order of the groups.  The aggregates
    are COUNT( * ), COUNT/SUM over a CASE, AVG (a rational: NULLs are
    skipped, no non-NULL value gives NULL) and ROUND(_, 2). *)

From Stdlib Require Import ZArith QArith String Sorted.
From stdpp Require Import base list strings sets.
From S2P Require Import Prelude.

Local Open Scope Z_scope.

Section GroupBy.
Context {A : Type} (key : A -> string).

Fixpoint group_insert (k : string) (x : A) (gs : list (string * list A))
  : list (string * list A) :=
  match gs with
  | [] => [(k, [x])]
  | (k', xs) :: gs' =>
      if String.eqb k k' then (k', xs ++ [x]) :: gs'
      else if str_le k k' then (k, [x]) :: gs
      else (k', xs) :: group_insert k x gs'
  end.

Definition group_by (l : list A) : list (string * list A) :=
  foldl (fun gs x => group_insert (key x) x gs) [] l.

(** The rows of group [k], [] when there is none. *)
Fixpoint lookup_group (k : string) (gs : list (string * list A)) : list A :=
  match gs with
  | [] => []
  | (k', xs) :: gs' => if String.eqb k k' then xs else lookup_group k gs'
  end.

Definition grouped (l : list A) (gs : list (string * list A)) : Prop :=
  NoDup (map fst gs) /\
  (forall k, lookup_group k gs = filter (fun x => key x = k) l) /\
  (forall g, g ∈ gs -> snd g <> []).
End GroupBy.

(** ** Aggregates *)

Definition count_star {A} (rs : list A) : Z := Z.of_nat (length rs).

(** COUNT(CASE WHEN c THEN 1 END) and SUM(CASE WHEN c THEN 1 ELSE 0 END)
    over a non-empty group: the number of rows where [c] holds. *)
Definition count_when {A} (c : A -> bool) (rs : list A) : Z :=
  Z.of_nat (length (filter (fun r => c r = true) rs)).

(** AVG over the non-NULL values. *)
Definition sql_avg (vs : list (option Z)) : option Q :=
  match omap id vs with
  | [] => None
  | xs => Some (zsum xs # Pos.of_nat (length xs))
  end.

(** ROUND(q, 2) in hundredths, halves rounded away from zero. *)
Definition round2 (q : Q) : Z :=
  let n := 100 * Qnum q in
  let d := Zpos (Qden q) in
  if 0 <=? n then (2 * n + d) / (2 * d) else - ((- 2 * n + d) / (2 * d)).

Definition sql_round2 (o : option Q) : option Z := round2 <$> o.

(** ** GROUP BY meets its contract *)

Section GroupByLemmas.
Context {A : Type} (key : A -> string).
Implicit Types (gs : list (string * list A)) (x : A).

Definition keys_sorted (gs : list (string * list A)) : Prop :=
  StronglySorted str_lt (map fst gs).

Lemma lookup_group_absent k gs : k ∉ map fst gs -> lookup_group k gs = [].
Proof.
  induction gs as [|[k' xs] gs IH]; simpl; [done|]. intros Hk.
  apply not_elem_of_cons in Hk as [Hne Hk].
  destruct (String.eqb_spec k k'); [congruence|]. by apply IH.
Qed.

Lemma group_insert_keys k x gs :
  forall k', k' ∈ map fst (group_insert k x gs) -> k' = k \/ k' ∈ map fst gs.
Proof.
  induction gs as [|[k'' xs] gs IH]; simpl; intros k' Hk'.
  - apply list_elem_of_singleton in Hk'. by left.
  - destruct (String.eqb_spec k k''); [by right|].
    destruct (str_le k k''); [by apply elem_of_cons in Hk' as [->|]; [left|right]|].
    simpl in Hk'. apply elem_of_cons in Hk' as [->|Hk']; [right; left|].
    destruct (IH k' Hk'); [by left|right; by right].
Qed.

Lemma group_insert_sorted k x gs : keys_sorted gs -> keys_sorted (group_insert k x gs).
Proof.
  unfold keys_sorted. induction gs as [|[k'' xs] gs IH]; simpl; intros Hs.
  - repeat constructor.
  - destruct (String.eqb_spec k k'') as [->|Hne]; [done|].
    apply StronglySorted_inv in Hs as [Hs Hall].
    destruct (str_le k k'') eqn:Hle.
    + constructor; [by constructor|]. constructor; [by split|].
      eapply Forall_impl; [exact Hall|]. intros u Hu. by apply (str_lt_trans _ k'').
    + constructor; [by apply IH|]. apply Forall_forall. intros u Hu.
      destruct (group_insert_keys k x gs u Hu) as [->|Hu'].
      * split; [by apply (bp_not_le str_le)|done].
      * by apply (proj1 (Forall_forall _ _) Hall).
Qed.

Lemma lookup_group_insert k x gs k' :
  keys_sorted gs ->
  lookup_group k' (group_insert k x gs) =
  if String.eqb k' k then lookup_group k gs ++ [x] else lookup_group k' gs.
Proof.
  unfold keys_sorted. induction gs as [|[k'' xs] gs IH]; simpl; intros Hs.
  - destruct (String.eqb k' k); done.
  - apply StronglySorted_inv in Hs as [Hs Hall].
    destruct (String.eqb_spec k k'') as [->|Hne]; simpl.
    + destruct (String.eqb_spec k' k''); simpl; rewrite ?String.eqb_refl; done.
    + destruct (str_le k k'') eqn:Hle; simpl.
      * destruct (String.eqb_spec k' k) as [Heq|]; [subst k'|done].
        rewrite lookup_group_absent; [done|]. intros Hk.
        rewrite Forall_forall in Hall. destruct (Hall k Hk) as [Hle' Hne''].
        apply Hne. by apply str_le_antisym.
      * rewrite IH by done. destruct (String.eqb_spec k' k'') as [Heq|]; [subst k'|done].
        apply not_eq_sym, String.eqb_neq in Hne. by rewrite Hne.
Qed.

Lemma group_insert_nonempty k x gs :
  (forall g, g ∈ gs -> snd g <> []) -> forall g, g ∈ group_insert k x gs -> snd g <> [].
Proof.
  induction gs as [|[k'' xs] gs IH]; simpl; intros Hne g Hg.
  - apply list_elem_of_singleton in Hg as ->. done.
  - destruct (String.eqb k k''); [|destruct (str_le k k'')].
    + apply elem_of_cons in Hg as [->|Hg]; [simpl; by destruct xs|].
      apply Hne. by right.
    + apply elem_of_cons in Hg as [->|Hg]; [done|]. by apply Hne.
    + apply elem_of_cons in Hg as [->|Hg]; [apply Hne; left|].
      apply IH; [|done]. intros g' Hg'. apply Hne. by right.
Qed.

Lemma keys_sorted_NoDup gs : keys_sorted gs -> NoDup (map fst gs).
Proof.
  unfold keys_sorted. generalize (map fst gs). clear gs.
  induction l as [|k l IH]; intros Hs; constructor.
  - apply StronglySorted_inv in Hs as [_ Hall]. intros Hk.
    rewrite Forall_forall in Hall. by destruct (Hall k Hk).
  - apply IH. by invc Hs.
Qed.

Lemma group_by_snoc l x :
  group_by key (l ++ [x]) = group_insert (key x) x (group_by key l).
Proof. unfold group_by. by rewrite foldl_app. Qed.

Lemma group_by_sorted l : keys_sorted (group_by key l).
Proof.
  induction l as [|x l IH] using rev_ind; [constructor|].
  rewrite group_by_snoc. by apply group_insert_sorted.
Qed.

(** GROUP BY: one group per key, holding exactly the rows of that key,
    in their input order, and no empty group. *)
Lemma group_by_grouped l : grouped key l (group_by key l).
Proof.
  split; [apply keys_sorted_NoDup, group_by_sorted|].
  induction l as [|x l [IHl IHne]] using rev_ind; [split; [done|set_solver]|].
  rewrite group_by_snoc. split.
  - intros k. rewrite lookup_group_insert by apply group_by_sorted.
    rewrite filter_app, filter_cons, filter_nil. case_decide as Hd.
    + subst k. by rewrite String.eqb_refl, IHl.
    + destruct (String.eqb_spec k (key x)); [congruence|]. by rewrite app_nil_r, IHl.
  - by apply group_insert_nonempty.
Qed.

Lemma lookup_group_elem k xs gs :
  NoDup (map fst gs) -> (k, xs) ∈ gs -> lookup_group k gs = xs.
Proof.
  induction gs as [|[k' ys] gs IH]; simpl; intros Hnd Hin; [set_solver|].
  apply NoDup_cons in Hnd as [Hk' Hnd].
  apply elem_of_cons in Hin as [Heq|Hin].
  - invc Heq. by rewrite String.eqb_refl.
  - destruct (String.eqb_spec k k') as [->|]; [|by apply IH].
    exfalso. apply Hk'. apply list_elem_of_fmap. by exists (k', xs).
Qed.

Lemma lookup_group_nonnil k gs : lookup_group k gs <> [] -> (k, lookup_group k gs) ∈ gs.
Proof.
  induction gs as [|[k' ys] gs IH]; simpl; [done|].
  destruct (String.eqb_spec k k') as [->|]; intros H; [left|right; by apply IH].
Qed.

(** The contract in terms of membership. *)
Lemma grouped_elem l gs k xs :
  grouped key l gs ->
  (k, xs) ∈ gs <-> xs = filter (fun x => key x = k) l /\ xs <> [].
Proof.
  intros (Hnd & Hlk & Hne). split.
  - intros Hin. rewrite <- Hlk. split; [by rewrite (lookup_group_elem k xs gs)|].
    exact (Hne _ Hin).
  - intros [-> Hnn]. rewrite <- Hlk in *. by apply lookup_group_nonnil.
Qed.

Lemma group_by_elem l g :
  g ∈ group_by key l -> snd g = filter (fun x => key x = fst g) l /\ snd g <> [].
Proof.
  destruct g as [k xs]. intros Hg. exact (proj1 (grouped_elem l _ k xs (group_by_grouped l)) Hg).
Qed.

Lemma group_by_intro l k :
  filter (fun x => key x = k) l <> [] -> (k, filter (fun x => key x = k) l) ∈ group_by key l.
Proof. intros Hne. by apply (grouped_elem l _ k _ (group_by_grouped l)). Qed.

Lemma group_by_nil l : group_by key l = [] <-> l = [].
Proof.
  split; [|by intros ->]. destruct l as [|x l]; [done|]. intros Hg. exfalso.
  assert (Hin : (key x, filter (fun y => key y = key x) (x :: l)) ∈ group_by key (x :: l)).
  { apply group_by_intro. rewrite filter_cons_True by done. discriminate. }
  rewrite Hg in Hin. by apply not_elem_of_nil in Hin.
Qed.
End GroupByLemmas.

(** C15. The GROUP BY implementation meets the contract of GROUP BY:
    distinct keys, each group exactly the rows of its key in input
    order, no empty group; and the groups come out in ascending key
    order (BINARY collation), as SQLite's sorter produces them. *)
Theorem group_by_contract {A} (key : A -> string) (l : list A) :
  grouped key l (group_by key l) /\ StronglySorted str_lt (map fst (group_by key l)).
Proof. split; [apply group_by_grouped | apply group_by_sorted]. Qed.

(** ** ROUND depends on the value of the rational only *)

Lemma round_half_up_scale (a b : Z) (c : positive) :
  0 < b -> (2 * a + b) / (2 * b) = (2 * (a * Zpos c) + b * Zpos c) / (2 * (b * Zpos c)).
Proof.
  intros Hb. replace (2 * (a * Zpos c) + b * Zpos c) with ((2 * a + b) * Zpos c) by ring.
  replace (2 * (b * Zpos c)) with ((2 * b) * Zpos c) by ring.
  rewrite Z.div_mul_cancel_r; lia.
Qed.

#[export] Instance round2_proper : Proper (Qeq ==> eq) round2.
Proof.
  intros [n1 d1] [n2 d2] H. unfold Qeq in H; simpl in H. unfold round2; simpl.
  assert (Hsign : (0 <=? 100 * n1) = (0 <=? 100 * n2)).
  { destruct (Z.leb_spec 0 (100 * n1)), (Z.leb_spec 0 (100 * n2)); auto; nia. }
  rewrite Hsign. destruct (0 <=? 100 * n2).
  - rewrite (round_half_up_scale (100 * n1) (Zpos d1) d2),
            (round_half_up_scale (100 * n2) (Zpos d2) d1) by lia.
    f_equal; [|lia]. rewrite <- !Z.mul_assoc, H. lia.
  - replace (- 2 * (100 * n1)) with (2 * (- (100 * n1))) by ring.
    replace (- 2 * (100 * n2)) with (2 * (- (100 * n2))) by ring.
    rewrite (round_half_up_scale (- (100 * n1)) (Zpos d1) d2),
            (round_half_up_scale (- (100 * n2)) (Zpos d2) d1) by lia.
    f_equal. f_equal; [|lia]. nia.
Qed.

Lemma round2_inject_Z z : round2 (inject_Z z) = 100 * z.
Proof.
  unfold round2; simpl. rewrite Z.mul_1_r.
  destruct (Z.leb_spec 0 (100 * z)).
  - replace (2 * (100 * z) + 1) with (1 + (100 * z) * 2) by ring.
    rewrite Z.div_add by lia. change (1 / 2) with 0. lia.
  - replace (- 2 * (100 * z) + 1) with (1 + (- (100 * z)) * 2) by ring.
    rewrite Z.div_add by lia. change (1 / 2) with 0. lia.
Qed.

(** The average of copies of one value is that value. *)
Lemma zsum_repeat (d : Z) (n : nat) : zsum (repeat d n) = Z.of_nat n * d.
Proof. induction n as [|n IH]; simpl; [done|]. rewrite IH. lia. Qed.

Lemma sql_avg_const (d : Z) (k : nat) :
  k <> 0%nat -> exists q, sql_avg (repeat (Some d) k) = Some q /\ (q == inject_Z d)%Q.
Proof.
  intros Hk. unfold sql_avg.
  assert (Hom : omap id (repeat (Some d) k) = repeat d k)
    by (clear Hk; induction k; simpl; by f_equal).
  rewrite Hom. destruct k as [|k]; [done|].
  exists (zsum (repeat d (S k)) # Pos.of_nat (length (repeat d (S k)))). split; [reflexivity|].
  unfold Qeq. cbn [Qnum Qden inject_Z]. rewrite (zsum_repeat d (S k)), repeat_length.
  rewrite <- Pos.of_nat_succ, Zpos_P_of_succ_nat. lia.
Qed.

(** C20. ROUND(q, 2) is within half a hundredth of [q]:
    [|100 q - round2 q| <= 1/2], written over the integers. *)
Theorem round2_bounds (q : Q) :
  Z.abs (200 * Qnum q - 2 * Zpos (Qden q) * round2 q) <= Zpos (Qden q).
Proof.
  destruct q as [n d]. unfold round2; simpl.
  pose proof (Z.div_mod (2 * (100 * n) + Zpos d) (2 * Zpos d) ltac:(lia)) as Hp.
  pose proof (Z.mod_pos_bound (2 * (100 * n) + Zpos d) (2 * Zpos d) ltac:(lia)) as Hpb.
  pose proof (Z.div_mod (- 2 * (100 * n) + Zpos d) (2 * Zpos d) ltac:(lia)) as Hm.
  pose proof (Z.mod_pos_bound (- 2 * (100 * n) + Zpos d) (2 * Zpos d) ltac:(lia)) as Hmb.
  destruct (Z.leb_spec 0 (100 * n)); lia.
Qed.

(** C21. ROUND(x, 2) on an exact half hundredth rounds away from zero:
    [(k + 1/2)] hundredths become [k + 1] hundredths when [k >= 0] and
    [k] hundredths when [k < 0] (0.005 -> 0.01, -0.005 -> -0.01), as
    SQLite's round does. *)
Theorem round2_ties_away (k : Z) :
  round2 ((2 * k + 1) # 200) = if 0 <=? k then k + 1 else k.
Proof.
  unfold round2; simpl.
  destruct (Z.leb_spec 0 k), (Z.leb_spec 0 (100 * (2 * k + 1))); try lia;
    Z.div_mod_to_equations; lia.
Qed.
