(* ===== verification/Reports.v ===== *)
(** * The three grouped reports of [run_analysis]

    src/scripts/demo_sqlite.py:
    - Analysis 1, lines 125-141: per supplier, COUNT( * ), the count of
      rows with [delay_days > 0] and ROUND(AVG(delay_days), 2), ordered
      by the rounded average descending, LIMIT 5;
    - Analysis 2, lines 143-157: per warehouse, COUNT( * ), the rounded
      average and RANK() OVER (ORDER BY AVG(delay_days) DESC), which
      orders by the exact, unrounded average;
    - Analysis 3, lines 159-174: per product, the rounded average and
      the number of rows with [delay_days > 5], ordered by the rounded
      average descending, LIMIT 3.
    Each report is a function of the rows of the delay view; the ORDER
    BY engine is any [Sorter]. *)

From Stdlib Require Import ZArith QArith String Sorted.
From stdpp Require Import base list strings.
From S2P Require Import Prelude SqlDate Store Derive OrderBy GroupBy.

Local Open Scope Z_scope.

Record SupplierRow := mkSupplierRow {
  sr_supplier_name : string; sr_total_shipments : Z; sr_delayed_count : Z;
  sr_avg_delay : option Z }.

Record WarehouseRow := mkWarehouseRow {
  wr_warehouse_name : string; wr_volume : Z; wr_avg_delay : option Z; wr_rank : Z }.

Record ProductRow := mkProductRow {
  pr_product_name : string; pr_avg_delay : option Z; pr_severe_delays : Z }.

(** [delay_days > c]: NULL compares to nothing. *)
Definition delay_gt (c : Z) (r : DelayRow) : bool :=
  match delay_days r with Some d => c <? d | None => false end.

(** AVG(delay_days) over a group. *)
Definition group_avg (g : string * list DelayRow) : option Q :=
  sql_avg (map delay_days (snd g)).

(** Analysis 1: the SELECT list of one supplier group. *)
Definition supplier_row (g : string * list DelayRow) : SupplierRow :=
  mkSupplierRow (fst g) (count_star (snd g)) (count_when (delay_gt 0) (snd g))
    (sql_round2 (group_avg g)).

Definition supplier_order : SupplierRow -> SupplierRow -> bool :=
  on_key sr_avg_delay (opt_le Z.leb).

#[export] Instance supplier_order_preorder : BoolPreorder supplier_order.
Proof. unfold supplier_order. apply _. Qed.
#[export] Typeclasses Opaque supplier_order.

Definition top_suppliers `{Sorter} (rows : list DelayRow) : list SupplierRow :=
  top_by supplier_order 5 (map supplier_row (group_by supplier_name rows)).

(** Analysis 2: the window orders the groups by their exact average. *)
Definition warehouse_order : string * list DelayRow -> string * list DelayRow -> bool :=
  desc (on_key group_avg (opt_le Qle_bool)).

#[export] Instance warehouse_order_preorder : BoolPreorder warehouse_order.
Proof. unfold warehouse_order. apply _. Qed.
#[export] Typeclasses Opaque warehouse_order.

Definition warehouse_row (gr : (string * list DelayRow) * Z) : WarehouseRow :=
  let '(g, rk) := gr in
  mkWarehouseRow (fst g) (count_star (snd g)) (sql_round2 (group_avg g)) rk.

Definition warehouse_ranking `{Sorter} (rows : list DelayRow) : list WarehouseRow :=
  map warehouse_row
    (rank_rows warehouse_order (sort_by warehouse_order (group_by warehouse_name rows))).

(** Analysis 3. *)
Definition product_row (g : string * list DelayRow) : ProductRow :=
  mkProductRow (fst g) (sql_round2 (group_avg g)) (count_when (delay_gt 5) (snd g)).

Definition product_order : ProductRow -> ProductRow -> bool :=
  on_key pr_avg_delay (opt_le Z.leb).

#[export] Instance product_order_preorder : BoolPreorder product_order.
Proof. unfold product_order. apply _. Qed.
#[export] Typeclasses Opaque product_order.

Definition top_products `{Sorter} (rows : list DelayRow) : list ProductRow :=
  top_by product_order 3 (map product_row (group_by product_name rows)).

(** ** LIMIT n over ORDER BY over GROUP BY *)

Section GroupedTop.
Context `{Sorter} {R : Type} (le : R -> R -> bool) `{!BoolPreorder le}.
Context (f : string * list DelayRow -> R) (key : DelayRow -> string) (N : nat).

Lemma grouped_top_elem rows r :
  r ∈ top_by le N (map f (group_by key rows)) ->
  exists g, g ∈ group_by key rows /\ r = f g.
Proof.
  intros Hr. apply (top_by_elem le) in Hr.
  apply list_elem_of_fmap in Hr as [g [-> Hg]]. eauto.
Qed.

Lemma grouped_top_complete rows n :
  let rs := filter (fun d => key d = n) rows in
  rs <> [] ->
  f (n, rs) ∈ top_by le N (map f (group_by key rows)) \/
  (length (top_by le N (map f (group_by key rows))) = N /\
   forall r, r ∈ top_by le N (map f (group_by key rows)) -> le (f (n, rs)) r = true).
Proof.
  intros rs Hne. pose proof (group_by_intro key rows n Hne) as Hg.
  destruct (top_by_split le N (map f (group_by key rows))) as (rest & Hperm & Hdom & Hlen).
  assert (Hin : f (n, rs) ∈ top_by le N (map f (group_by key rows)) ++ rest).
  { rewrite Hperm. apply list_elem_of_fmap. eauto. }
  apply elem_of_app in Hin as [Hin|Hin]; [by left|right].
  split; [apply Hlen; intros ->; by apply not_elem_of_nil in Hin|].
  intros r Hr. exact (Hdom r _ Hr Hin).
Qed.

Lemma grouped_top_nil rows :
  N <> 0%nat -> top_by le N (map f (group_by key rows)) = [] <-> rows = [].
Proof.
  intros HN. rewrite <- (group_by_nil key), <- !length_zero_iff_nil.
  rewrite (top_by_length le), length_map. lia.
Qed.
End GroupedTop.

(** ** Analysis 1: supplier ranking *)

Section SupplierReport.
Context `{Sorter}.

(** C3. Every row of the supplier report is the aggregate of exactly
    the delay rows of that supplier: a non-empty group, its COUNT( * ),
    its number of rows with [delay_days > 0] and its rounded AVG. *)
Theorem top_suppliers_rows rows r :
  r ∈ top_suppliers rows ->
  let rs := filter (fun d => supplier_name d = sr_supplier_name r) rows in
  rs <> [] /\ sr_total_shipments r = count_star rs /\
  sr_delayed_count r = count_when (delay_gt 0) rs /\
  sr_avg_delay r = sql_round2 (sql_avg (map delay_days rs)).
Proof.
  intros (g & Hg & ->)%(grouped_top_elem supplier_order). apply group_by_elem in Hg as [Hrs Hne].
  unfold supplier_row, group_avg; simpl. rewrite <- Hrs. done.
Qed.

(** C4. The supplier report has at most five rows, is ordered by
    rounded average delay, non-increasing, and has no supplier without
    shipments. *)
Theorem top_suppliers_shape rows :
  (length (top_suppliers rows) <= 5)%nat /\
  Sorted (fun a b => opt_le Z.leb (sr_avg_delay b) (sr_avg_delay a) = true) (top_suppliers rows) /\
  Forall (fun r => 1 <= sr_total_shipments r) (top_suppliers rows).
Proof.
  split; [|split].
  - unfold top_suppliers. rewrite (top_by_length supplier_order). lia.
  - exact (top_by_sorted supplier_order 5 _).
  - apply Forall_forall. intros r (g & Hg & ->)%(grouped_top_elem supplier_order).
    apply group_by_elem in Hg as [_ Hne]. unfold supplier_row, count_star; simpl.
    destruct (snd g); [done|simpl; lia].
Qed.

(** C5. LIMIT 5 keeps the worst suppliers: a supplier with shipments
    that is not in the report is behind five suppliers whose rounded
    average is at least its own. *)
Theorem top_suppliers_complete rows n :
  let rs := filter (fun d => supplier_name d = n) rows in
  rs <> [] ->
  (exists r, r ∈ top_suppliers rows /\ sr_supplier_name r = n) \/
  (length (top_suppliers rows) = 5%nat /\
   forall r, r ∈ top_suppliers rows ->
     opt_le Z.leb (sql_round2 (sql_avg (map delay_days rs))) (sr_avg_delay r) = true).
Proof.
  intros rs Hne.
  destruct (grouped_top_complete supplier_order supplier_row supplier_name 5 rows n Hne)
    as [Hin|[Hlen Hdom]]; [left; by eexists|right; split; [done|]].
  intros r Hr. exact (Hdom r Hr).
Qed.

(** C17. The supplier report is empty exactly when the delay view is:
    an empty Shipments table gives an empty list, not an error. *)
Theorem top_suppliers_empty rows : top_suppliers rows = [] <-> rows = [].
Proof. by apply (grouped_top_nil supplier_order). Qed.
End SupplierReport.

(** ** Analysis 2: warehouse ranking *)

Section WarehouseReport.
Context `{Sorter}.

Lemma warehouse_ranking_eq rows :
  let W := sort_by warehouse_order (group_by warehouse_name rows) in
  warehouse_ranking rows = map (fun g => warehouse_row (g, rank_of warehouse_order W g)) W.
Proof.
  intros W. unfold warehouse_ranking. rewrite (rank_rows_eq warehouse_order) by apply (sort_by_sorted warehouse_order).
  by rewrite map_map.
Qed.

Lemma warehouse_strictly_before g' g :
  strictly_before warehouse_order g' g = negb (opt_le Qle_bool (group_avg g') (group_avg g)).
Proof.
  unfold strictly_before, warehouse_order, desc, on_key.
  destruct (opt_le Qle_bool (group_avg g') (group_avg g)) eqn:E; [by rewrite andb_false_r|].
  rewrite (bp_not_le (opt_le Qle_bool) _ _ E). done.
Qed.

Lemma warehouse_ranking_elem rows r :
  r ∈ warehouse_ranking rows ->
  exists g, g ∈ group_by warehouse_name rows /\
    r = warehouse_row (g, 1 + Z.of_nat (length (filter
          (fun g' => opt_le Qle_bool (group_avg g') (group_avg g) = false)
          (group_by warehouse_name rows)))).
Proof.
  rewrite warehouse_ranking_eq. intros (g & -> & Hg)%list_elem_of_fmap.
  exists g. rewrite (sort_by_perm warehouse_order) in Hg. split; [done|].
  rewrite (rank_of_perm warehouse_order _ _ _ (sort_by_perm _ _)). unfold rank_of.
  do 5 f_equal. apply list_filter_iff. intros g'.
  rewrite warehouse_strictly_before. apply negb_true_iff.
Qed.

(** C6. RANK() OVER (ORDER BY AVG(delay_days) DESC): every warehouse
    row carries its group's COUNT( * ) and rounded AVG, and its rank is
    one plus the number of warehouse groups whose exact average delay
    is strictly greater. *)
Theorem warehouse_rank_exact rows r :
  r ∈ warehouse_ranking rows ->
  exists g, g ∈ group_by warehouse_name rows /\
    wr_warehouse_name r = fst g /\ wr_volume r = count_star (snd g) /\
    wr_avg_delay r = sql_round2 (group_avg g) /\
    wr_rank r = 1 + Z.of_nat (length (filter
          (fun g' => opt_le Qle_bool (group_avg g') (group_avg g) = false)
          (group_by warehouse_name rows))).
Proof. intros (g & Hg & ->)%warehouse_ranking_elem. exists g. by destruct g. Qed.

(** C7. The warehouse report lists every warehouse that has delay
    rows exactly once (no LIMIT), in window order: ranks never decrease
    down the report and the first row has rank 1. *)
Theorem warehouse_rank_order rows :
  map wr_warehouse_name (warehouse_ranking rows) ≡ₚ map fst (group_by warehouse_name rows) /\
  Sorted Z.le (map wr_rank (warehouse_ranking rows)) /\
  (forall r rest, warehouse_ranking rows = r :: rest -> wr_rank r = 1).
Proof.
  rewrite warehouse_ranking_eq. set (W := sort_by warehouse_order _).
  assert (HW : Sorted (le_rel warehouse_order) W) by apply (sort_by_sorted warehouse_order).
  split; [|split].
  - rewrite map_map. simpl. rewrite <- (sort_by_perm warehouse_order (group_by _ rows)).
    fold W. apply Permutation_refl' , map_ext. by intros [].
  - rewrite map_map. apply (Sorted_map_mono (le_rel warehouse_order)); [|done].
    intros x y Hxy. destruct x, y. apply (rank_of_mono warehouse_order), Hxy.
  - destruct W as [|g W'] eqn:E; [done|]. intros r rest Hr. invc Hr. simpl.
    apply (rank_of_first warehouse_order), (sorted_strongly warehouse_order), HW.
Qed.

(** C8. Two warehouses whose exact average delays are equal get the
    same rank. *)
Theorem warehouse_rank_ties rows r1 r2 :
  r1 ∈ warehouse_ranking rows -> r2 ∈ warehouse_ranking rows ->
  (forall g1 g2, g1 ∈ group_by warehouse_name rows -> g2 ∈ group_by warehouse_name rows ->
     fst g1 = wr_warehouse_name r1 -> fst g2 = wr_warehouse_name r2 ->
     opt_le Qle_bool (group_avg g1) (group_avg g2) = true ->
     opt_le Qle_bool (group_avg g2) (group_avg g1) = true ->
     wr_rank r1 = wr_rank r2).
Proof.
  intros (h1 & Hh1 & ->)%warehouse_ranking_elem (h2 & Hh2 & ->)%warehouse_ranking_elem
    g1 g2 Hg1 Hg2 Hn1 Hn2 H12 H21.
  destruct h1 as [k1 xs1], h2 as [k2 xs2]. simpl in *.
  pose proof (keys_sorted_NoDup _ (group_by_sorted warehouse_name rows)) as Hnd.
  rewrite (NoDup_fst_eq _ g1 (k1, xs1) Hnd Hg1 Hh1 Hn1) in H12, H21.
  rewrite (NoDup_fst_eq _ g2 (k2, xs2) Hnd Hg2 Hh2 Hn2) in H12, H21.
  do 5 f_equal. apply list_filter_iff. intros g'.
  destruct (opt_le Qle_bool (group_avg g') (group_avg (k1, xs1))) eqn:E1,
    (opt_le Qle_bool (group_avg g') (group_avg (k2, xs2))) eqn:E2; try tauto; exfalso.
  - rewrite (bp_trans _ _ _ E1 H12) in E2. discriminate.
  - rewrite (bp_trans _ _ _ E2 H21) in E1. discriminate.
Qed.
End WarehouseReport.

(** ** Analysis 3: product impact *)

Section ProductReport.
Context `{Sorter}.

(** C12. Every row of the product report is the aggregate of exactly
    the delay rows of that product: its rounded AVG and its number of
    severe delays ([delay_days > 5]). *)
Theorem top_products_rows rows r :
  r ∈ top_products rows ->
  let rs := filter (fun d => product_name d = pr_product_name r) rows in
  rs <> [] /\ pr_avg_delay r = sql_round2 (sql_avg (map delay_days rs)) /\
  pr_severe_delays r = count_when (delay_gt 5) rs.
Proof.
  intros (g & Hg & ->)%(grouped_top_elem product_order). apply group_by_elem in Hg as [Hrs Hne].
  unfold product_row, group_avg; simpl. rewrite <- Hrs. done.
Qed.

(** C13. The product report holds at most three products, ordered by
    rounded average delay, non-increasing, and a product with delay
    rows that is left out is behind three products whose rounded
    average is at least its own. *)
Theorem top_products_top rows n :
  (length (top_products rows) <= 3)%nat /\
  Sorted (fun a b => opt_le Z.leb (pr_avg_delay b) (pr_avg_delay a) = true) (top_products rows) /\
  (let rs := filter (fun d => product_name d = n) rows in
   rs <> [] ->
   (exists r, r ∈ top_products rows /\ pr_product_name r = n) \/
   (length (top_products rows) = 3%nat /\
    forall r, r ∈ top_products rows ->
      opt_le Z.leb (sql_round2 (sql_avg (map delay_days rs))) (pr_avg_delay r) = true)).
Proof.
  split; [|split].
  - unfold top_products. rewrite (top_by_length product_order). lia.
  - exact (top_by_sorted product_order 3 _).
  - intros rs Hne.
    destruct (grouped_top_complete product_order product_row product_name 3 rows n Hne)
      as [Hin|[Hlen Hdom]]; [left; by eexists|right; split; [done|]].
    intros r Hr. exact (Hdom r Hr).
Qed.
End ProductReport.

(** ** Concrete runs of the reports *)

(** Five shipments over three suppliers, warehouses and products. *)
Definition sample_rows : list DelayRow :=
  shipment_delays (shipments_db
    [mkShipmentValues 1 3 2 100 "2023-01-01" "2023-01-20";
     mkShipmentValues 2 1 1 100 "2023-01-05" "2023-01-12";
     mkShipmentValues 2 2 3 100 "2023-02-01" "2023-02-10";
     mkShipmentValues 3 3 1 100 "2023-01-03" "2023-01-30";
     mkShipmentValues 1 1 2 100 "2023-03-01" "2023-03-05"]%string).

Definition asia_row : SupplierRow := mkSupplierRow "Asia Logistics Hub" 2 2 (Some 800).

Lemma top_suppliers_rows_witness :
  asia_row ∈ top_suppliers sample_rows /\
  (let rs := filter (fun d => supplier_name d = sr_supplier_name asia_row) sample_rows in
   rs <> [] /\ sr_total_shipments asia_row = count_star rs /\
   sr_delayed_count asia_row = count_when (delay_gt 0) rs /\
   sr_avg_delay asia_row = sql_round2 (sql_avg (map delay_days rs))).
Proof.
  assert (Hin : asia_row ∈ top_suppliers sample_rows) by (vm_compute; solve_elem).
  split; [exact Hin | exact (top_suppliers_rows sample_rows asia_row Hin)].
Defined.

Lemma top_suppliers_complete_witness :
  let rs := filter (fun d => supplier_name d = "Precision Manufacturing"%string) sample_rows in
  rs <> [] /\
  ((exists r, r ∈ top_suppliers sample_rows /\ sr_supplier_name r = "Precision Manufacturing"%string) \/
   (length (top_suppliers sample_rows) = 5%nat /\
    forall r, r ∈ top_suppliers sample_rows ->
      opt_le Z.leb (sql_round2 (sql_avg (map delay_days rs))) (sr_avg_delay r) = true)).
Proof.
  intros rs. assert (Hne : rs <> []) by (vm_compute; discriminate).
  split; [exact Hne | exact (top_suppliers_complete sample_rows _ Hne)].
Defined.

Definition east_row : WarehouseRow :=
  mkWarehouseRow "East Coast Distribution Center" 2 (Some 700) 1.

Lemma warehouse_rank_exact_witness :
  east_row ∈ warehouse_ranking sample_rows /\
  exists g, g ∈ group_by warehouse_name sample_rows /\
    wr_warehouse_name east_row = fst g /\ wr_volume east_row = count_star (snd g) /\
    wr_avg_delay east_row = sql_round2 (group_avg g) /\
    wr_rank east_row = 1 + Z.of_nat (length (filter
          (fun g' => opt_le Qle_bool (group_avg g') (group_avg g) = false)
          (group_by warehouse_name sample_rows))).
Proof.
  assert (Hin : east_row ∈ warehouse_ranking sample_rows) by (vm_compute; solve_elem).
  split; [exact Hin | exact (warehouse_rank_exact sample_rows east_row Hin)].
Defined.

(** The specification's example: mean delays W1 = 8, W2 = 8, W3 = 3.
    Supplier 1 promises 5 days: 13 days elapsed is a delay of 8, 8 days
    a delay of 3. *)
Definition spec_ranking_rows : list DelayRow :=
  shipment_delays (shipments_db
    [mkShipmentValues 1 1 1 100 "2023-01-01" "2023-01-14";
     mkShipmentValues 1 1 2 100 "2023-01-01" "2023-01-14";
     mkShipmentValues 1 1 3 100 "2023-01-01" "2023-01-09"]%string).

Lemma warehouse_rank_ties_witness :
  let r1 := mkWarehouseRow "East Coast Distribution Center" 1 (Some 800) 1 in
  let r2 := mkWarehouseRow "West Coast Hub" 1 (Some 800) 1 in
  r1 ∈ warehouse_ranking spec_ranking_rows /\ r2 ∈ warehouse_ranking spec_ranking_rows /\
  (forall g1 g2, g1 ∈ group_by warehouse_name spec_ranking_rows ->
     g2 ∈ group_by warehouse_name spec_ranking_rows ->
     fst g1 = wr_warehouse_name r1 -> fst g2 = wr_warehouse_name r2 ->
     opt_le Qle_bool (group_avg g1) (group_avg g2) = true ->
     opt_le Qle_bool (group_avg g2) (group_avg g1) = true ->
     wr_rank r1 = wr_rank r2).
Proof.
  intros r1 r2.
  assert (H1 : r1 ∈ warehouse_ranking spec_ranking_rows) by (vm_compute; solve_elem).
  assert (H2 : r2 ∈ warehouse_ranking spec_ranking_rows) by (vm_compute; solve_elem).
  split; [exact H1|split; [exact H2|]].
  exact (warehouse_rank_ties spec_ranking_rows r1 r2 H1 H2).
Defined.

Definition lcd_row : ProductRow := mkProductRow "LCD Display Panel" (Some 1200) 1.

Lemma top_products_rows_witness :
  lcd_row ∈ top_products sample_rows /\
  (let rs := filter (fun d => product_name d = pr_product_name lcd_row) sample_rows in
   rs <> [] /\ pr_avg_delay lcd_row = sql_round2 (sql_avg (map delay_days rs)) /\
   pr_severe_delays lcd_row = count_when (delay_gt 5) rs).
Proof.
  assert (Hin : lcd_row ∈ top_products sample_rows) by (vm_compute; solve_elem).
  split; [exact Hin | exact (top_products_rows sample_rows lcd_row Hin)].
Defined.

