(* ===== verification/Rolling.v ===== *)
(** * Analysis 4: the rolling delay trend

    src/scripts/demo_sqlite.py, lines 176-190:
      SELECT order_date, delay_days,
             ROUND(AVG(delay_days) OVER (ORDER BY order_date
                   ROWS BETWEEN 4 PRECEDING AND CURRENT ROW), 2)
      FROM Shipment_Delays ORDER BY order_date DESC LIMIT 10
    The window sorts the delay rows by order date (TEXT, BINARY
    collation).  SQLite computes a sliding AVG incrementally: each row
    entering the frame is added by the aggregate's step function, each
    row leaving it is taken out by its inverse function ([rolling_from],
    over SQLite's sum context).  [rolling_ref] is the definition of the
    frame: the current row and up to four rows before it. *)

From Stdlib Require Import ZArith QArith String Sorted.
From stdpp Require Import base list strings.
From S2P Require Import Prelude SqlDate Store Derive OrderBy GroupBy.

Local Open Scope Z_scope.

(** SQLite's SumCtx for AVG over integers: the running sum and the
    number of non-NULL values. *)
Record SumCtx := mkSumCtx { iSum : Z; cnt : Z }.

Definition avgStep (v : option Z) (p : SumCtx) : SumCtx :=
  match v with Some d => mkSumCtx (iSum p + d) (cnt p + 1) | None => p end.

Definition avgInverse (v : option Z) (p : SumCtx) : SumCtx :=
  match v with Some d => mkSumCtx (iSum p - d) (cnt p - 1) | None => p end.

Definition avgFinalize (p : SumCtx) : option Q :=
  if cnt p <=? 0 then None else Some (iSum p # Z.to_pos (cnt p)).

(** The frame holds at most five rows: after adding the current row, the
    oldest row leaves once there are six. *)
Fixpoint rolling_from (frame : list DelayRow) (p : SumCtx) (l : list DelayRow)
  : list (DelayRow * option Q) :=
  match l with
  | [] => []
  | r :: l' =>
      let p1 := avgStep (delay_days r) p in
      let frame1 := frame ++ [r] in
      let '(frame2, p2) :=
        match frame1 with
        | old :: rest =>
            if (5 <? length frame1)%nat then (rest, avgInverse (delay_days old) p1)
            else (frame1, p1)
        | [] => (frame1, p1)
        end in
      (r, avgFinalize p2) :: rolling_from frame2 p2 l'
  end.

Definition rolling_avg (W : list DelayRow) : list (DelayRow * option Q) :=
  rolling_from [] (mkSumCtx 0 0) W.

(** ROWS BETWEEN 4 PRECEDING AND CURRENT ROW, at position [i]. *)
Definition frame_at (W : list DelayRow) (i : nat) : list DelayRow :=
  drop (i - 4) (take (S i) W).

Definition rolling_ref (W : list DelayRow) : list (DelayRow * option Q) :=
  imap (fun i r => (r, sql_avg (map delay_days (frame_at W i)))) W.

Record TrendRow := mkTrendRow {
  tr_order_date : string; tr_delay_days : option Z; tr_rolling_avg : option Z }.

Definition trend_row (ra : DelayRow * option Q) : TrendRow :=
  mkTrendRow (dr_order_date (fst ra)) (delay_days (fst ra)) (sql_round2 (snd ra)).

(** OVER (ORDER BY order_date) and the outer ORDER BY order_date. *)
Definition window_order : DelayRow -> DelayRow -> bool := on_key dr_order_date str_le.
Definition trend_order : TrendRow -> TrendRow -> bool := on_key tr_order_date str_le.

#[export] Instance window_order_preorder : BoolPreorder window_order.
Proof. unfold window_order. apply _. Qed.
#[export] Instance trend_order_preorder : BoolPreorder trend_order.
Proof. unfold trend_order. apply _. Qed.
#[export] Typeclasses Opaque window_order trend_order.

Definition rolling_trend `{Sorter} (rows : list DelayRow) : list TrendRow :=
  top_by trend_order 10 (map trend_row (rolling_avg (sort_by window_order rows))).

(** ** The incremental window equals the definition of the frame *)

(** The non-NULL delays of some rows, and the context that sums them. *)
Definition vals (f : list DelayRow) : list Z := omap id (map delay_days f).

Definition ctx_of (f : list DelayRow) : SumCtx :=
  mkSumCtx (zsum (vals f)) (Z.of_nat (length (vals f))).

Lemma vals_app f1 f2 : vals (f1 ++ f2) = vals f1 ++ vals f2.
Proof. unfold vals. rewrite map_app. apply omap_app. Qed.

Lemma vals_single r :
  vals [r] = match delay_days r with Some d => [d] | None => [] end.
Proof. unfold vals; simpl. by destruct (delay_days r). Qed.

Lemma avgStep_ctx f r : avgStep (delay_days r) (ctx_of f) = ctx_of (f ++ [r]).
Proof.
  unfold ctx_of. rewrite vals_app.
  rewrite vals_single.
  destruct (delay_days r) as [d|]; simpl.
  - rewrite zsum_app, length_app; simpl. f_equal; lia.
  - by rewrite app_nil_r.
Qed.

Lemma avgInverse_ctx old rest : avgInverse (delay_days old) (ctx_of (old :: rest)) = ctx_of rest.
Proof.
  unfold ctx_of. change (old :: rest) with ([old] ++ rest). rewrite vals_app.
  rewrite vals_single.
  destruct (delay_days old) as [d|]; simpl; [|done].
  rewrite Nat2Z.inj_succ. f_equal; lia.
Qed.

Lemma avgFinalize_ctx f : avgFinalize (ctx_of f) = sql_avg (map delay_days f).
Proof.
  unfold avgFinalize, ctx_of, sql_avg. fold (vals f).
  destruct (vals f) as [|x xs]; [done|]. simpl length.
  rewrite Nat2Z.inj_succ. destruct (Z.leb_spec (Z.succ (Z.of_nat (length xs))) 0); [lia|].
  do 2 f_equal. rewrite <- Nat2Z.inj_succ. simpl. by rewrite Pos.of_nat_succ.
Qed.

(** One step of the window: add the current row, drop the oldest one
    when six rows are in the frame. *)
Lemma frame_step (P : list DelayRow) r :
  (match drop (length P - 5) P ++ [r] with
   | old :: rest =>
       if (5 <? length (drop (length P - 5) P ++ [r]))%nat
       then (rest, avgInverse (delay_days old) (ctx_of (drop (length P - 5) P ++ [r])))
       else (drop (length P - 5) P ++ [r], ctx_of (drop (length P - 5) P ++ [r]))
   | [] => (drop (length P - 5) P ++ [r], ctx_of (drop (length P - 5) P ++ [r]))
   end)
  = (drop (length (P ++ [r]) - 5) (P ++ [r]), ctx_of (drop (length (P ++ [r]) - 5) (P ++ [r]))).
Proof.
  rewrite <- drop_app_le by lia. rewrite length_app; simpl.
  destruct (drop (length P - 5) (P ++ [r])) as [|old rest] eqn:E.
  - exfalso. apply (f_equal length) in E. rewrite length_drop, length_app in E; simpl in E. lia.
  - rewrite <- E, length_drop, length_app; simpl.
    destruct (Nat.ltb_spec 5 (length P + 1 - (length P - 5))).
    + replace (length P + 1 - 5)%nat with ((length P - 5) + 1)%nat by lia.
      rewrite <- drop_drop, E. simpl. by rewrite avgInverse_ctx.
    + by replace (length P + 1 - 5)%nat with (length P - 5)%nat by lia.
Qed.

Lemma frame_at_prefix (P : list DelayRow) r l :
  frame_at (P ++ r :: l) (length P) = drop (length (P ++ [r]) - 5) (P ++ [r]).
Proof.
  unfold frame_at. rewrite length_app; simpl.
  replace (P ++ r :: l) with ((P ++ [r]) ++ l) by (by rewrite <- app_assoc).
  rewrite take_app_le by (rewrite length_app; simpl; lia).
  rewrite take_ge by (rewrite length_app; simpl; lia). f_equal. lia.
Qed.

(** After the prefix [P], the frame is the last five rows of [P] at most
    and the context sums their non-NULL delays. *)
Lemma rolling_from_ref l P :
  rolling_from (drop (length P - 5) P) (ctx_of (drop (length P - 5) P)) l =
  imap (fun i r => (r, sql_avg (map delay_days (frame_at (P ++ l) (length P + i))))) l.
Proof.
  revert P. induction l as [|r l IH]; intros P; [done|]. simpl.
  rewrite avgStep_ctx, frame_step. f_equal.
  - rewrite avgFinalize_ctx, Nat.add_0_r. by rewrite frame_at_prefix.
  - rewrite (IH (P ++ [r])).
    replace ((P ++ [r]) ++ l) with (P ++ r :: l) by (by rewrite <- app_assoc).
    apply imap_ext. intros i x _. rewrite length_app; simpl. do 4 f_equal. lia.
Qed.

(** ** Properties of the trend report *)

Section Trend.
Context `{Sorter}.

Lemma rolling_trend_elem rows t :
  t ∈ rolling_trend rows ->
  exists i r, sort_by window_order rows !! i = Some r /\
    t = trend_row (r, sql_avg (map delay_days (frame_at (sort_by window_order rows) i))).
Proof.
  unfold rolling_trend. intros Ht. apply (top_by_elem trend_order) in Ht.
  apply list_elem_of_fmap in Ht as [x [-> Hx]]. unfold rolling_avg in Hx.
  rewrite (rolling_from_ref _ []) in Hx. apply elem_of_lookup_imap_1 in Hx as (i & r & -> & Hr).
  eauto.
Qed.

(** C10. Every row of the trend report is a row of the delay view at
    some position [i] of the window order, with its order date, its
    delay, and the rounded average of the non-NULL delays of the rows
    at positions [i - 4] to [i] (fewer at the start of the series). *)
Theorem rolling_trend_rows rows t :
  t ∈ rolling_trend rows ->
  exists i r, sort_by window_order rows !! i = Some r /\
    tr_order_date t = dr_order_date r /\ tr_delay_days t = delay_days r /\
    tr_rolling_avg t = sql_round2 (sql_avg (map delay_days
      (drop (i - 4) (take (S i) (sort_by window_order rows))))).
Proof. intros (i & r & Hr & ->)%rolling_trend_elem. exists i, r. done. Qed.

(** C16. The trend report holds at most ten rows, latest order date
    first. *)
Theorem rolling_trend_shape rows :
  (length (rolling_trend rows) <= 10)%nat /\
  Sorted (fun a b => str_le (tr_order_date b) (tr_order_date a) = true) (rolling_trend rows).
Proof.
  split.
  - unfold rolling_trend. rewrite (top_by_length trend_order). lia.
  - exact (top_by_sorted trend_order 10 _).
Qed.
End Trend.

Lemma frame_at_length (W : list DelayRow) i r :
  W !! i = Some r -> length (frame_at W i) = Nat.min (S i) 5.
Proof.
  intros Hr. unfold frame_at. rewrite (take_S_r _ _ _ Hr).
  assert (Hi : (i < length W)%nat) by (by apply lookup_lt_Some in Hr).
  rewrite length_drop, length_app, length_take. simpl. lia.
Qed.

(** C9. SQLite's incremental sliding AVG (add the entering row, take
    out the leaving row) computes, at every position of the window, the
    average of the non-NULL delays of the frame. *)
Theorem rolling_avg_ref (W : list DelayRow) : rolling_avg W = rolling_ref W.
Proof. exact (rolling_from_ref W []). Qed.

Lemma frame_le_current (W : list DelayRow) i r z :
  StronglySorted (le_rel window_order) W -> W !! i = Some r ->
  z ∈ frame_at W i -> window_order z r = true.
Proof.
  intros Hs Hr Hz. unfold frame_at in Hz. rewrite (take_S_r _ _ _ Hr) in Hz.
  apply (fun H => elem_of_sublist _ _ _ H (sublist_drop _ _)) in Hz.
  apply elem_of_app in Hz as [Hz|Hz].
  - rewrite <- (take_drop i W) in Hs. apply (strongly_sorted_app window_order _ _ z r Hs Hz).
    apply list_elem_of_lookup. exists 0%nat. by rewrite lookup_drop, Nat.add_0_r.
  - apply list_elem_of_singleton in Hz as ->. apply (bp_refl window_order).
Qed.

(** C11. A shipment ordered strictly before every other one (the first
    of the series) has as rolling average its own delay, exactly: every
    report row with its order date shows [100 * delay_days] hundredths. *)
Theorem rolling_trend_earliest `{Sorter} rows r d :
  r ∈ rows -> delay_days r = Some d ->
  (forall r', r' ∈ rows -> str_le (dr_order_date r') (dr_order_date r) = true -> r' = r) ->
  forall t, t ∈ rolling_trend rows -> tr_order_date t = dr_order_date r ->
  tr_rolling_avg t = Some (100 * d).
Proof.
  intros Hr Hd Hfirst t Ht Hdate.
  destruct (rolling_trend_elem rows t Ht) as (i & y & Hy & ->). simpl in *.
  set (W := sort_by window_order rows) in *.
  assert (HW : StronglySorted (le_rel window_order) W)
    by apply (sorted_strongly window_order), (sort_by_sorted window_order).
  assert (Hin : forall z, z ∈ W -> z ∈ rows)
    by (intros z Hz; by rewrite <- (sort_by_perm window_order rows)).
  assert (Hyr : y = r).
  { apply Hfirst; [apply Hin; by eapply list_elem_of_lookup_2|].
    rewrite Hdate. apply (bp_refl str_le). }
  subst y.
  assert (Hall : forall z, z ∈ frame_at W i -> z = r).
  { intros z Hz. apply Hfirst; [|exact (frame_le_current W i r z HW Hy Hz)].
    apply Hin. unfold frame_at in Hz.
    apply (fun H => elem_of_sublist _ _ _ H (sublist_drop _ _)) in Hz.
    exact (elem_of_sublist _ _ _ Hz (sublist_take _ _)). }
  rewrite (all_eq_repeat _ _ Hall), map_repeat, Hd, (frame_at_length W i r Hy).
  destruct (sql_avg_const d (Nat.min (S i) 5) ltac:(lia)) as (q & -> & Hq).
  simpl. by rewrite Hq, round2_inject_Z.
Qed.

(** ** Concrete runs *)

(** Three shipments of supplier 1 (lead time 5) ordered on three days. *)
Definition trend_rows : list DelayRow :=
  shipment_delays (shipments_db
    [mkShipmentValues 1 1 1 100 "2023-01-03" "2023-01-10";
     mkShipmentValues 1 1 1 100 "2023-01-01" "2023-01-09";
     mkShipmentValues 1 1 1 100 "2023-01-02" "2023-01-06"]%string).

Definition first_trend_row : DelayRow :=
  mkDelayRow 2 "Microprocessor X1" "Global Tech Parts" "East Coast Distribution Center"
    "2023-01-01" (Some "2023-01-09"%string) (Some 5) (Some 8) (Some 3).

Definition first_trend : TrendRow := mkTrendRow "2023-01-01" (Some 3) (Some 300).

Lemma rolling_trend_rows_witness :
  first_trend ∈ rolling_trend trend_rows /\
  exists i r, sort_by window_order trend_rows !! i = Some r /\
    tr_order_date first_trend = dr_order_date r /\ tr_delay_days first_trend = delay_days r /\
    tr_rolling_avg first_trend = sql_round2 (sql_avg (map delay_days
      (drop (i - 4) (take (S i) (sort_by window_order trend_rows))))).
Proof.
  assert (Ht : first_trend ∈ rolling_trend trend_rows) by (vm_compute; solve_elem).
  split; [exact Ht | exact (rolling_trend_rows trend_rows first_trend Ht)].
Defined.

Lemma rolling_trend_earliest_witness :
  first_trend_row ∈ trend_rows /\ delay_days first_trend_row = Some 3 /\
  (forall r', r' ∈ trend_rows ->
     str_le (dr_order_date r') (dr_order_date first_trend_row) = true -> r' = first_trend_row) /\
  (forall t, t ∈ rolling_trend trend_rows -> tr_order_date t = dr_order_date first_trend_row ->
     tr_rolling_avg t = Some (100 * 3)).
Proof.
  assert (Hin : first_trend_row ∈ trend_rows) by (vm_compute; solve_elem).
  assert (Hd : delay_days first_trend_row = Some 3) by reflexivity.
  assert (Hfirst : forall r', r' ∈ trend_rows ->
     str_le (dr_order_date r') (dr_order_date first_trend_row) = true -> r' = first_trend_row).
  { intros r' Hr'. vm_compute in Hr'.
    repeat (apply elem_of_cons in Hr' as [-> | Hr']; [vm_compute; congruence|]).
    by apply not_elem_of_nil in Hr'. }
  split; [exact Hin|split; [exact Hd|split; [exact Hfirst|]]].
  exact (rolling_trend_earliest trend_rows first_trend_row 3 Hin Hd Hfirst).
Defined.

