(* ===== verification/Generate.v ===== *)
(** * The synthetic shipments of [setup_database]

    src/scripts/demo_sqlite.py, lines 75-92: fifty iterations, each
    drawing a product, a supplier, a warehouse, a quantity and an order
    day from Python's [random] module, then a delay that is large with
    probability 0.3, and inserting one shipment.  The random module is
    an interface ([Rng]: [randint] and [random] as functions of the
    generator state, with the range law of [randint]); every theorem
    holds for every generator obeying it and every seed.  The loop runs
    in a state-and-exception monad: the state is the generator's, the
    exception a Python error ([OverflowError] of a date, [IndexError]
    of a list), which would abort [setup_database]. *)

From Stdlib Require Import ZArith QArith String.
From stdpp Require Import base list strings.
From S2P Require Import Prelude SqlDate Calendar Store Derive.

Local Open Scope Z_scope.

(** ** The random module *)

Class Rng (S : Type) := {
  randint : Z -> Z -> S -> Z * S;   (** [random.randint(a, b)] *)
  random : S -> Q * S               (** [random.random()] *)
}.

Class RngLaws (S : Type) `{Rng S} := {
  randint_range : forall a b s, a <= b -> a <= fst (randint a b s) <= b
}.

(** ** State and exceptions *)

Definition Gen (S A : Type) : Type := S -> option (A * S).

#[export] Instance gen_ret {S} : MRet (Gen S) := fun A x s => Some (x, s).
#[export] Instance gen_bind {S} : MBind (Gen S) :=
  fun A B f m s => match m s with Some (x, s') => f x s' | None => None end.

(** A Python expression that may raise. *)
Definition raise_none {S A} (o : option A) : Gen S A :=
  fun s => match o with Some x => Some (x, s) | None => None end.

Section Loop.
Context {St : Type} `{Rng St}.

Definition draw_int (a b : Z) : Gen St Z := fun s => Some (randint a b s).
Definition draw_unit : Gen St Q := fun s => Some (random s).

(** [l[i]] on a Python list: negative indices count from the end. *)
Definition py_index {A} (l : list A) (i : Z) : option A :=
  if (0 <=? i) && (i <? Z.of_nat (length l)) then l !! Z.to_nat i
  else if (- Z.of_nat (length l) <=? i) && (i <? 0) then l !! Z.to_nat (Z.of_nat (length l) + i)
  else None.

(** [x < y] on rationals. *)
Definition Qlt_bool (x y : Q) : bool := negb (Qle_bool y x).

(** The double nearest to 0.3, which the literal [0.3] denotes. *)
Definition DELAY_PROBABILITY : Q := 5404319552844595 # 18014398509481984.

Definition start_date : PyDate.date := PyDate.mkDate 2023 1 1.

(** One iteration of the loop (lines 78-92), with the random calls in
    the order Python evaluates them. *)
Definition shipment_step : Gen St ShipmentValues :=
  p_id ← draw_int 1 5;
  s_id ← draw_int 1 5;
  w_id ← draw_int 1 3;
  qty ← draw_int 100 2000;
  k ← draw_int 0 180;
  order_dt ← raise_none (PyDate.add_days start_date k);
  sup ← raise_none (py_index suppliers_seed (s_id - 1));
  let '(_, _, lead_time) := sup in
  u ← draw_unit;
  off ← (if Qlt_bool u DELAY_PROBABILITY then draw_int 5 15 else draw_int (-1) 2);
  let actual_days := lead_time + off in
  delivery_dt ← raise_none (PyDate.add_days order_dt (Z.max 1 actual_days));
  mret (mkShipmentValues p_id s_id w_id qty
          (PyDate.isoformat order_dt) (PyDate.isoformat delivery_dt)).

(** [for _ in range(n)]: one step and one INSERT per iteration. *)
Fixpoint shipment_loop (n : nat) (db : Db) : Gen St Db :=
  match n with
  | O => mret db
  | S n' => v ← shipment_step; shipment_loop n' (insert_shipment v db)
  end.

(** [setup_database]: schema, the three seeds, then fifty shipments. *)
Definition setup_database : Gen St Db := shipment_loop 50 (seed_db setup_schema).

End Loop.

(** ** What one iteration inserts *)

(** The values of a shipment the loop can insert: ids of seeded rows,
    a quantity in range, an order date within 180 days of 2023-01-01,
    and a delivery date [lead + off] days later, where [lead] is the
    supplier's lead time and [off] a drawn offset. *)
Definition good_values (v : ShipmentValues) : Prop :=
  1 <= sv_product v <= 5 /\ 1 <= sv_supplier v <= 5 /\ 1 <= sv_warehouse v <= 3 /\
  100 <= sv_qty v <= 2000 /\
  exists d1 d2 nm loc lead off,
    PyDate.valid_date d1 = true /\
    0 <= PyDate.toordinal d1 - PyDate.toordinal start_date <= 180 /\
    suppliers_seed !! Z.to_nat (sv_supplier v - 1) = Some (nm, loc, lead) /\
    (-1 <= off <= 2 \/ 5 <= off <= 15) /\
    PyDate.add_days d1 (lead + off) = Some d2 /\
    sv_order v = PyDate.isoformat d1 /\ sv_delivery v = PyDate.isoformat d2.

(** Name a [randint] draw of the goal and record its range. *)
Ltac draw :=
  match goal with
  | |- context [randint ?a ?b ?s] =>
      let E := fresh "E" in let R := fresh "R" in
      destruct (randint a b s) as [?x ?s'] eqn:E;
      pose proof (randint_range a b s ltac:(lia)) as R; rewrite E in R; simpl in R
  end.

Section LoopLemmas.
Context {St : Type} `{RngLaws St}.

Lemma start_date_valid : PyDate.valid_date start_date = true.
Proof. reflexivity. Qed.

Lemma py_index_in_range {A} (l : list A) (i : Z) :
  0 <= i < Z.of_nat (length l) -> py_index l i = l !! Z.to_nat i.
Proof.
  intros Hi. unfold py_index.
  by replace ((0 <=? i) && (i <? _)) with true by (symmetry; apply andb_true_iff; lia).
Qed.

Lemma seed_lead (i : Z) :
  0 <= i < 5 ->
  exists nm loc lead, py_index suppliers_seed i = Some (nm, loc, lead) /\
    suppliers_seed !! Z.to_nat i = Some (nm, loc, lead) /\ 5 <= lead <= 15.
Proof.
  intros Hi. rewrite py_index_in_range by (simpl; lia).
  assert (i = 0 \/ i = 1 \/ i = 2 \/ i = 3 \/ i = 4) as Hc by lia.
  destruct_or! Hc; subst i; eexists _, _, _; split_and!; try reflexivity; lia.
Qed.

(** Every iteration inserts good values: no exception is raised. *)
Lemma shipment_step_ok s :
  exists v s', shipment_step s = Some (v, s') /\ good_values v.
Proof.
  unfold shipment_step, mbind, gen_bind, draw_int, draw_unit, raise_none, mret, gen_ret.
  do 5 draw.
  destruct (Agreement.add_days_in_range start_date x3) as (d1 & Ed1 & V1 & O1);
    [change (PyDate.toordinal start_date) with 738521; unfold PyDate.MAXORDINAL; lia|].
  rewrite Ed1. destruct (seed_lead (x0 - 1) ltac:(lia)) as (nm & loc & lead & Ei & El & Hl).
  rewrite Ei. match goal with |- context [random ?s] => destruct (random s) as [u s5] end.
  destruct (Qlt_bool u DELAY_PROBABILITY); draw;
  (destruct (Agreement.add_days_in_range d1 (Z.max 1 (lead + x4))) as (d2 & Ed2 & _);
    [change (PyDate.toordinal start_date) with 738521 in O1; unfold PyDate.MAXORDINAL; lia|]);
  rewrite Ed2; eexists _, _; (split; [reflexivity|]);
  (split_and!; simpl; try lia);
  exists d1, d2, nm, loc, lead, x4; (split_and!; try done; try lia);
  rewrite <- Ed2; f_equal; lia.
Qed.

(** ** The loop keeps the seeded tables and inserts good shipments *)

Definition seeded : Db := seed_db setup_schema.

Definition loop_inv (db : Db) : Prop :=
  Suppliers db = Suppliers seeded /\ Products db = Products seeded /\
  Warehouses db = Warehouses seeded /\ dense (Shipments db) /\
  Forall (fun sh => exists v, sh = mk_shipment v (shipment_id sh) /\ good_values v)
         (rows (Shipments db)).

Lemma mk_shipment_id v id : row_id (mk_shipment v id) = id.
Proof. reflexivity. Qed.

Lemma seeded_inv : loop_inv seeded.
Proof. split_and!; try done; split; reflexivity. Qed.

Lemma insert_shipment_inv v db :
  loop_inv db -> good_values v ->
  loop_inv (insert_shipment v db) /\
  length (rows (Shipments (insert_shipment v db))) = S (length (rows (Shipments db))).
Proof.
  intros (Hs & Hp & Hw & Hd & Hall) Hv. unfold insert_shipment. cbn [Shipments Suppliers Products Warehouses].
  rewrite (insert_row_rows mk_shipment v _ Hd), length_app, Nat.add_1_r.
  split; [|done]. split_and!; try done.
  - by apply (insert_row_dense mk_shipment mk_shipment_id).
  - apply Forall_app. split; [done|]. apply Forall_singleton. by exists v.
Qed.

Lemma shipment_loop_ok n db s :
  loop_inv db ->
  exists db' s', shipment_loop n db s = Some (db', s') /\ loop_inv db' /\
    length (rows (Shipments db')) = (length (rows (Shipments db)) + n)%nat.
Proof.
  revert db s. induction n as [|n IH]; intros db s Hinv; simpl.
  - exists db, s. split_and!; [done|done|lia].
  - unfold mbind, gen_bind. destruct (shipment_step_ok s) as (v & s' & -> & Hv).
    destruct (insert_shipment_inv v db Hinv Hv) as [Hinv' Hlen].
    destruct (IH _ s' Hinv') as (db' & s'' & E & Hinv'' & Hlen'').
    exists db', s''. split_and!; [done|done|lia].
Qed.

(** ** The seeded entities the generated ids resolve to *)

Lemma seeded_supplier k nm loc lead :
  1 <= k <= 5 -> suppliers_seed !! Z.to_nat (k - 1) = Some (nm, loc, lead) ->
  rows_with_id (Suppliers seeded) (Some k) = [mk_supplier (nm, loc, lead) k] /\ 5 <= lead <= 15.
Proof.
  intros Hk. assert (k = 1 \/ k = 2 \/ k = 3 \/ k = 4 \/ k = 5) as Hc by lia.
  destruct_or! Hc; subst k; intros E; vm_compute in E; invc E; split; (reflexivity || lia).
Qed.

Lemma seeded_product k : 1 <= k <= 5 -> exists p, rows_with_id (Products seeded) (Some k) = [p].
Proof.
  intros Hk. assert (k = 1 \/ k = 2 \/ k = 3 \/ k = 4 \/ k = 5) as Hc by lia.
  destruct_or! Hc; subst k; eexists; reflexivity.
Qed.

Lemma seeded_warehouse k : 1 <= k <= 3 -> exists w, rows_with_id (Warehouses seeded) (Some k) = [w].
Proof.
  intros Hk. assert (k = 1 \/ k = 2 \/ k = 3) as Hc by lia.
  destruct_or! Hc; subst k; eexists; reflexivity.
Qed.

(** What the delay view makes of one generated shipment. *)
Definition generated_row (r : DelayRow) : Prop :=
  exists lead off, promised_lead_time r = Some lead /\ 5 <= lead <= 15 /\
    actual_lead_time r = Some (lead + off) /\ delay_days r = Some off /\
    (-1 <= off <= 2 \/ 5 <= off <= 15).

Lemma good_join db v id :
  loop_inv db -> good_values v ->
  exists r,
    (p ← rows_with_id (Products db) (sh_product_id (mk_shipment v id));
     sup ← rows_with_id (Suppliers db) (sh_supplier_id (mk_shipment v id));
     w ← rows_with_id (Warehouses db) (sh_warehouse_id (mk_shipment v id));
     [delay_row (mk_shipment v id) p sup w]) = [r] /\ generated_row r.
Proof.
  intros (-> & -> & -> & _) (Hp & Hs & Hw & _ & d1 & d2 & nm & loc & lead & off & V1 & _ & El & Hoff & Ed2 & Eo & Ed).
  destruct (seeded_supplier _ _ _ _ Hs El) as [Esup Hl].
  destruct (seeded_product _ Hp) as [p Ep]. destruct (seeded_warehouse _ Hw) as [w Ew].
  cbn [sh_product_id sh_supplier_id sh_warehouse_id mk_shipment]. rewrite Ep, Esup, Ew.
  eexists. split; [reflexivity|].
  destruct (Agreement.elapsed_add_days d1 (lead + off) d2 lead V1 Ed2) as [Ea Edl].
  exists lead, off. unfold delay_row; simpl. rewrite Eo, Ed. simpl. rewrite Ea, Edl.
  split_and!; try done; f_equal; lia.
Qed.

(** ** The generated database *)

(** C27. [setup_database] always returns: whatever the generator and its
    seed, no Python exception is raised (every date stays in range,
    every list index is valid), and the database holds 50 shipments. *)
Theorem setup_database_total s :
  exists db s', setup_database s = Some (db, s') /\ length (rows (Shipments db)) = 50%nat.
Proof.
  destruct (shipment_loop_ok 50 seeded s seeded_inv) as (db & s' & E & _ & Hlen).
  exists db, s'. split; [exact E|]. rewrite Hlen. reflexivity.
Qed.

(** C22. On the generated database the delay view has one row per
    shipment (all references resolve), and each row's delay is the
    drawn offset: -1 to 2 days, or 5 to 15 days late; the actual lead
    time is the supplier's lead time plus that offset, so every
    delivery is at least four days after its order. *)
Theorem generated_delays s db s' :
  setup_database s = Some (db, s') ->
  length (shipment_delays db) = 50%nat /\ Forall generated_row (shipment_delays db).
Proof.
  intros E. destruct (shipment_loop_ok 50 seeded s seeded_inv) as (db' & s'' & E' & Hinv & Hlen).
  change (setup_database s) with (shipment_loop 50 seeded s) in E. rewrite E' in E. invc E.
  destruct Hinv as (Hs & Hp & Hw & Hd & Hall).
  change (length (rows (Shipments seeded))) with 0%nat in Hlen. simpl in Hlen.
  unfold shipment_delays. rewrite <- Hlen.
  apply bind_singletons. eapply Forall_impl; [exact Hall|]. intros sh (v & Esh & Hv).
  rewrite Esh. apply good_join; [split_and!|]; done.
Qed.

End LoopLemmas.

(** ** A generator for examples: a linear congruential generator *)

Definition lcg_next (x : Z) : Z := (1103515245 * x + 12345) mod 2147483648.

#[export] Instance lcg_rng : Rng Z := {
  randint a b x := (a + x mod (b - a + 1), lcg_next x);
  random x := (x mod 1000 # 1000, lcg_next x)
}.

#[export] Instance lcg_laws : RngLaws Z.
Proof. constructor. intros a b x Hab. simpl. pose proof (Z.mod_pos_bound x (b - a + 1)). lia. Qed.

Definition sample_run : option (Db * Z) := setup_database 2023.

Definition sample_db : Db := match sample_run with Some (db, _) => db | None => seeded end.
Definition sample_state : Z := match sample_run with Some (_, s) => s | None => 0 end.

Lemma setup_database_total_witness :
  exists db s', setup_database 2023 = Some (db, s') /\ length (rows (Shipments db)) = 50%nat.
Proof. exact (setup_database_total 2023). Defined.

Lemma generated_delays_witness :
  setup_database 2023 = Some (sample_db, sample_state) /\
  length (shipment_delays sample_db) = 50%nat /\ Forall generated_row (shipment_delays sample_db).
Proof.
  assert (E : setup_database 2023 = Some (sample_db, sample_state)) by (vm_compute; reflexivity).
  split; [exact E|]. exact (generated_delays 2023 sample_db sample_state E).
Defined.
