(* ===== verification/GenerateData.v ===== *)
(** * The SQL script generator [generate_data]

    src/scripts/generate_data.py: ten suppliers, ten products and five
    warehouses as INSERT statements, then 150 random shipments, joined
    with newlines and written to ../sql/02_data.sql.  The statements
    are f-strings; [py_str] is Python's [str] of an integer.  The
    random module and the exception monad are those of [Generate].
    The file write is I/O: the model returns the text written. *)

From Stdlib Require Import ZArith QArith String Ascii.
From stdpp Require Import base list strings.
From S2P Require Import Prelude Calendar Generate.

Local Open Scope Z_scope.

(** ** The seed lists (lines 5-37) *)

Definition gd_suppliers : list (string * string * Z) :=
  [("Global Tech Parts", "San Jose, CA", 5);
   ("Precision Manufacturing", "Detroit, MI", 10);
   ("Asia Logistics Hub", "Singapore", 15);
   ("Euro Component Co", "Berlin, Germany", 12);
   ("Coastal Supplies", "Seattle, WA", 7);
   ("Northern Iron & Steel", "Chicago, IL", 20);
   ("South Sea Electronics", "Shenzhen, China", 25);
   ("Latin America Freight", "Mexico City", 18);
   ("Mountain Raw Materials", "Denver, CO", 14);
   ("Island Precision", "Tokyo, Japan", 22)]%string.

Definition gd_products : list (string * string) :=
  [("Microprocessor X1", "Electronics");
   ("Industrial Grade Steel", "Raw Materials");
   ("LCD Display Panel", "Electronics");
   ("Aluminum Casing", "Components");
   ("Lithium Battery Pack", "Components");
   ("Hydraulic Valve", "Industrial");
   ("Copper Wiring 500m", "Raw Materials");
   ("Control Circuit Board", "Electronics");
   ("High-Torque Motor", "Industrial");
   ("Graphite Electrode", "Raw Materials")]%string.

Definition gd_warehouses : list (string * string) :=
  [("East Coast Distribution Center", "Newark, NJ");
   ("West Coast Hub", "Long Beach, CA");
   ("Central Logistics Base", "Memphis, TN");
   ("European Gateway", "Rotterdam, Netherlands");
   ("Asia-Pacific Depot", "Hong Kong")]%string.

(** ** Python's [str] of an integer *)

(** The decimal digits of [n >= 0], most significant first; [fuel]
    bounds the number of digits. *)
Fixpoint dec_digits (fuel : nat) (n : Z) (acc : string) : string :=
  match fuel with
  | O => acc
  | S fuel' =>
      if n <? 10 then String (PyDate.digit_char n) acc
      else dec_digits fuel' (n / 10) (String (PyDate.digit_char (n mod 10)) acc)
  end.

Definition digits_fuel (n : Z) : nat := S (Z.to_nat (Z.log2 n)).

Definition py_str (n : Z) : string :=
  if n <? 0 then String "-" (dec_digits (digits_fuel (- n)) (- n) EmptyString)
  else dec_digits (digits_fuel n) n EmptyString.

(** ** The statements (lines 42-75) *)

Definition quote (s : string) : string := "'" +:+ s +:+ "'".

Definition supplier_sql (t : string * string * Z) : string :=
  let '(name, loc, lt) := t in
  "INSERT INTO Suppliers (name, location, lead_time_days) VALUES (" +:+
  quote name +:+ ", " +:+ quote loc +:+ ", " +:+ py_str lt +:+ ");".

Definition product_sql (t : string * string) : string :=
  let '(name, cat) := t in
  "INSERT INTO Products (name, category) VALUES (" +:+ quote name +:+ ", " +:+ quote cat +:+ ");".

Definition warehouse_sql (t : string * string) : string :=
  let '(name, loc) := t in
  "INSERT INTO Warehouses (name, location) VALUES (" +:+ quote name +:+ ", " +:+ quote loc +:+ ");".

Definition shipment_sql (p_id s_id w_id qty : Z) (order_date delivery_date : PyDate.date) : string :=
  "INSERT INTO Shipments (product_id, supplier_id, warehouse_id, quantity, order_date, delivery_date) " +:+
  "VALUES (" +:+ py_str p_id +:+ ", " +:+ py_str s_id +:+ ", " +:+ py_str w_id +:+ ", " +:+
  py_str qty +:+ ", " +:+ quote (PyDate.isoformat order_date) +:+ ", " +:+
  quote (PyDate.isoformat delivery_date) +:+ ");".

(** ["\n".join(sql_statements)] *)
Fixpoint join_lines (l : list string) : string :=
  match l with
  | [] => EmptyString
  | [s] => s
  | s :: l' => s +:+ String "010"%char (join_lines l')
  end.

Section Generator.
Context {St : Type} `{Rng St}.

(** One iteration of the shipment loop (lines 55-76). *)
Definition gd_shipment_step : Gen St string :=
  p_id ← draw_int 1 (Z.of_nat (length gd_products));
  s_id ← draw_int 1 (Z.of_nat (length gd_suppliers));
  w_id ← draw_int 1 (Z.of_nat (length gd_warehouses));
  qty ← draw_int 100 5000;
  k ← draw_int 0 365;
  order_date ← raise_none (PyDate.add_days start_date k);
  sup ← raise_none (py_index gd_suppliers (s_id - 1));
  let '(_, _, avg_lead_time) := sup in
  u ← draw_unit;
  actual_days ←
    (if Qlt_bool u DELAY_PROBABILITY then
       off ← draw_int 5 30; mret (avg_lead_time + off)
     else
       off ← draw_int (-2) 3;
       let actual_days := avg_lead_time + off in
       mret (if actual_days <? 1 then 1 else actual_days));
  delivery_date ← raise_none (PyDate.add_days order_date actual_days);
  mret (shipment_sql p_id s_id w_id qty order_date delivery_date).

(** [for i in range(1, 151)], appending one statement per iteration. *)
Fixpoint gd_shipment_loop (n : nat) (acc : list string) : Gen St (list string) :=
  match n with
  | O => mret acc
  | S n' => stmt ← gd_shipment_step; gd_shipment_loop n' (acc ++ [stmt])
  end.

(** [generate_data]: the statements, and the text written to the file. *)
Definition gd_statements : Gen St (list string) :=
  gd_shipment_loop 150
    (map supplier_sql gd_suppliers ++ map product_sql gd_products ++ map warehouse_sql gd_warehouses).

Definition generate_data : Gen St string :=
  stmts ← gd_statements; mret (join_lines stmts).

End Generator.

(** ** Reading the file back: Python's [text.split("\n")] *)

Fixpoint split_nl (s : string) : list string :=
  match s with
  | EmptyString => [EmptyString]
  | String c s' =>
      if Ascii.eqb c "010"%char then EmptyString :: split_nl s'
      else match split_nl s' with
           | [] => [String c EmptyString]
           | l0 :: rest => String c l0 :: rest
           end
  end.

(** A text without a line break. *)
Fixpoint no_nl (s : string) : bool :=
  match s with
  | EmptyString => true
  | String c s' => negb (Ascii.eqb c "010"%char) && no_nl s'
  end.

(** ** Lemmas on lines *)

Lemma no_nl_app a b : no_nl (a +:+ b) = no_nl a && no_nl b.
Proof. induction a as [|c a IH]; [done|]. simpl. rewrite IH. apply andb_assoc. Qed.

Lemma split_nl_single a : no_nl a = true -> split_nl a = [a].
Proof.
  induction a as [|c a IH]; [done|]. simpl. intros [Hc Ha]%andb_prop.
  apply negb_true_iff in Hc. rewrite Hc, IH by done. done.
Qed.

Lemma split_nl_app a b :
  no_nl a = true -> split_nl (a +:+ String "010"%char b) = a :: split_nl b.
Proof.
  induction a as [|c a IH]; [done|]. simpl. intros [Hc Ha]%andb_prop.
  apply negb_true_iff in Hc. rewrite Hc, IH by done. done.
Qed.

Lemma split_join l : l <> [] -> Forall (fun s => no_nl s = true) l -> split_nl (join_lines l) = l.
Proof.
  induction l as [|a l IH]; intros Hne Hl; [done|]. apply Forall_cons in Hl as [Ha Hl].
  destruct l as [|b l]; simpl.
  - by apply split_nl_single.
  - rewrite split_nl_app by done. f_equal. by apply IH.
Qed.

Lemma digit_char_no_nl k : 0 <= k < 10 -> negb (Ascii.eqb (PyDate.digit_char k) "010"%char) = true.
Proof.
  intros Hk. assert (k = 0 \/ k = 1 \/ k = 2 \/ k = 3 \/ k = 4 \/ k = 5 \/ k = 6 \/ k = 7 \/
                     k = 8 \/ k = 9) as Hc by lia.
  destruct_or! Hc; subst k; reflexivity.
Qed.

Lemma dec_digits_no_nl fuel n acc :
  0 <= n -> no_nl acc = true -> no_nl (dec_digits fuel n acc) = true.
Proof.
  revert n acc. induction fuel as [|fuel IH]; intros n acc Hn Hacc; [done|]. simpl.
  destruct (Z.ltb_spec n 10).
  - simpl. rewrite digit_char_no_nl by lia. done.
  - apply IH; [apply Z.div_pos; lia|]. simpl.
    rewrite digit_char_no_nl by (apply Z.mod_pos_bound; lia). done.
Qed.

Lemma py_str_no_nl n : no_nl (py_str n) = true.
Proof.
  unfold py_str. destruct (Z.ltb_spec n 0); [cbn [no_nl]; apply andb_true_intro; split; [done|]|];
    apply dec_digits_no_nl; done || lia.
Qed.

Lemma zpad_no_nl k v : 0 <= v -> no_nl (PyDate.zpad k v) = true.
Proof.
  intros Hv. induction k as [|k IH]; [done|]. simpl.
  rewrite digit_char_no_nl, IH by (apply Z.mod_pos_bound; lia). done.
Qed.

Lemma isoformat_no_nl d :
  PyDate.valid_date d = true -> no_nl (PyDate.isoformat d) = true.
Proof.
  intros [Hy [Hm Hd]%PyDate.valid_md_spec]%Agreement.valid_date_spec.
  unfold PyDate.isoformat. rewrite !no_nl_app, !zpad_no_nl by lia. done.
Qed.

Lemma shipment_sql_no_nl p s w q d1 d2 :
  PyDate.valid_date d1 = true -> PyDate.valid_date d2 = true ->
  no_nl (shipment_sql p s w q d1 d2) = true.
Proof.
  intros H1 H2. unfold shipment_sql, quote.
  rewrite !no_nl_app, !py_str_no_nl, !isoformat_no_nl by done. done.
Qed.

(** ** What the shipment loop appends *)

(** A shipment statement the loop can write: ids of the seed lists
    (1-based positions), a quantity in range, an order date within 365
    days of 2023-01-01, and a delivery date [lead + off] days later. *)
Definition good_stmt (stmt : string) : Prop :=
  exists p s w q d1 d2 nm loc lead off,
    stmt = shipment_sql p s w q d1 d2 /\
    1 <= p <= 10 /\ 1 <= s <= 10 /\ 1 <= w <= 5 /\ 100 <= q <= 5000 /\
    gd_suppliers !! Z.to_nat (s - 1) = Some (nm, loc, lead) /\
    PyDate.valid_date d1 = true /\
    0 <= PyDate.toordinal d1 - PyDate.toordinal start_date <= 365 /\
    PyDate.valid_date d2 = true /\
    PyDate.toordinal d2 = PyDate.toordinal d1 + lead + off /\
    (-2 <= off <= 3 \/ 5 <= off <= 30).

Definition seed_statements : list string :=
  map supplier_sql gd_suppliers ++ map product_sql gd_products ++ map warehouse_sql gd_warehouses.

Section GeneratorLemmas.
Context {St : Type} `{RngLaws St}.

Lemma gd_lead (i : Z) :
  0 <= i < 10 ->
  exists nm loc lead, py_index gd_suppliers i = Some (nm, loc, lead) /\
    gd_suppliers !! Z.to_nat i = Some (nm, loc, lead) /\ 5 <= lead <= 25.
Proof.
  intros Hi. rewrite py_index_in_range by (simpl; lia).
  assert (i = 0 \/ i = 1 \/ i = 2 \/ i = 3 \/ i = 4 \/ i = 5 \/ i = 6 \/ i = 7 \/ i = 8 \/ i = 9)
    as Hc by lia.
  destruct_or! Hc; subst i; eexists _, _, _; split_and!; try reflexivity; lia.
Qed.

Lemma gd_shipment_step_ok s :
  exists stmt s', gd_shipment_step s = Some (stmt, s') /\ good_stmt stmt.
Proof.
  unfold gd_shipment_step, mbind, gen_bind, draw_int, draw_unit, raise_none, mret, gen_ret.
  simpl length. do 5 draw.
  destruct (Agreement.add_days_in_range start_date x3) as (d1 & Ed1 & V1 & O1);
    [change (PyDate.toordinal start_date) with 738521; unfold PyDate.MAXORDINAL; lia|].
  change (PyDate.toordinal start_date) with 738521 in O1.
  rewrite Ed1. destruct (gd_lead (x0 - 1) ltac:(lia)) as (nm & loc & lead & Ei & El & Hl).
  rewrite Ei. match goal with |- context [random ?s] => destruct (random s) as [u s5] end.
  destruct (Qlt_bool u DELAY_PROBABILITY); draw;
    [|replace (lead + x4 <? 1) with false by (symmetry; apply Z.ltb_ge; lia)];
  (destruct (Agreement.add_days_in_range d1 (lead + x4)) as (d2 & Ed2 & V2 & O2);
    [unfold PyDate.MAXORDINAL; lia|]);
  rewrite Ed2; eexists _, _; (split; [reflexivity|]);
  exists x, x0, x1, x2, d1, d2, nm, loc, lead, x4; split_and!; try done;
  change (PyDate.toordinal start_date) with 738521; lia.
Qed.

Lemma gd_shipment_loop_ok n acc s :
  exists new s', gd_shipment_loop n acc s = Some (acc ++ new, s') /\
    length new = n /\ Forall good_stmt new.
Proof.
  revert acc s. induction n as [|n IH]; intros acc s; simpl.
  - exists [], s. by rewrite app_nil_r.
  - unfold mbind, gen_bind. destruct (gd_shipment_step_ok s) as (stmt & s' & -> & Hg).
    destruct (IH (acc ++ [stmt]) s') as (new & s'' & E & Hlen & Hall).
    exists (stmt :: new), s''. rewrite E, <- app_assoc. split_and!; [done|simpl; lia|by constructor].
Qed.

End GeneratorLemmas.

Lemma seed_statements_no_nl : Forall (fun s => no_nl s = true) seed_statements.
Proof. apply (bool_decide_unpack _). vm_compute. reflexivity. Qed.

Lemma good_stmt_no_nl stmt : good_stmt stmt -> no_nl stmt = true.
Proof.
  intros (p & s & w & q & d1 & d2 & _ & _ & _ & _ & -> & _ & _ & _ & _ & _ & V1 & _ & V2 & _).
  by apply shipment_sql_no_nl.
Qed.

Section GeneratorTheorems.
Context {St : Type} `{RngLaws St}.

(** C28. [generate_data] always returns (no exception for any generator
    and seed) and writes, in this order, the ten supplier, ten product
    and five warehouse statements of its seed lists, then 150 shipment
    statements, each naming the 1-based positions of a seeded product,
    supplier and warehouse, a quantity in 100..5000, an order date in
    2023-01-01 + 0..365 days and a delivery date the supplier's lead
    time plus an offset in -2..3 or 5..30 days later. *)
Theorem gd_statements_spec s :
  exists shipments s', gd_statements s = Some (seed_statements ++ shipments, s') /\
    length shipments = 150%nat /\ Forall good_stmt shipments.
Proof. exact (gd_shipment_loop_ok 150 seed_statements s). Qed.

(** C29. The file holds one statement per line: splitting the text
    written at each newline gives back the 175 statements. *)
Theorem generate_data_lines s :
  exists text stmts s', generate_data s = Some (text, s') /\ gd_statements s = Some (stmts, s') /\
    split_nl text = stmts /\ length stmts = 175%nat.
Proof.
  destruct (gd_shipment_loop_ok 150 seed_statements s) as (new & s' & E & Hlen & Hall).
  exists (join_lines (seed_statements ++ new)), (seed_statements ++ new), s'.
  unfold generate_data, mbind, gen_bind, mret, gen_ret. fold (@gd_statements St _).
  change (gd_statements s) with (gd_shipment_loop 150 seed_statements s). rewrite E.
  split_and!; try done.
  - apply split_join; [by destruct new|]. apply Forall_app. split; [exact seed_statements_no_nl|].
    eapply Forall_impl; [exact Hall|]. exact good_stmt_no_nl.
  - rewrite length_app, Hlen. reflexivity.
Qed.

End GeneratorTheorems.

Lemma gd_statements_spec_witness :
  exists shipments s', gd_statements (St := Z) 2023 = Some (seed_statements ++ shipments, s') /\
    length shipments = 150%nat /\ Forall good_stmt shipments.
Proof. exact (gd_statements_spec 2023). Defined.

Lemma generate_data_lines_witness :
  exists text stmts s', generate_data (St := Z) 2023 = Some (text, s') /\
    gd_statements 2023 = Some (stmts, s') /\ split_nl text = stmts /\ length stmts = 175%nat.
Proof. exact (generate_data_lines 2023). Defined.
